(** * Unisphere: the event / registration synchronisation logic of [App.js]

    A shallow embedding of the state-bearing part of the React Native client:
    the hooks of [HomeScreen], [EventDetailsScreen] and
    [MyRegistrationsScreen], the asynchronous handlers that run against the
    remote API, and the render decisions that depend on that state.

    Strings are Rocq [string]s (characters of one byte); [toLowerCase] folds
    the letters A-Z, and [trim] strips the white space characters that exist
    in that range. *)

From Stdlib Require Import String Ascii List Bool Arith Lia.
Import ListNotations.
Open Scope string_scope.

(** ** The string methods the handlers call *)

Module JsString.

Definition lowerChar (c : ascii) : ascii :=
  let n := nat_of_ascii c in
  if ((65 <=? n) && (n <=? 90))%nat then ascii_of_nat (n + 32) else c.

(** [String.prototype.toLowerCase] *)
Fixpoint toLowerCase (s : string) : string :=
  match s with
  | EmptyString => EmptyString
  | String c s' => String (lowerChar c) (toLowerCase s')
  end.

(** White space and line terminators: TAB, LF, VT, FF, CR, SP, NBSP. *)
Definition isWhiteSpace (c : ascii) : bool :=
  existsb (Nat.eqb (nat_of_ascii c)) [9; 10; 11; 12; 13; 32; 160].

Fixpoint trimStart (s : string) : string :=
  match s with
  | EmptyString => EmptyString
  | String c s' => if isWhiteSpace c then trimStart s' else s
  end.

Fixpoint trimEnd (s : string) : string :=
  match s with
  | EmptyString => EmptyString
  | String c s' =>
      match trimEnd s' with
      | EmptyString => if isWhiteSpace c then EmptyString else String c EmptyString
      | t => String c t
      end
  end.

(** [String.prototype.trim] *)
Definition trim (s : string) : string := trimEnd (trimStart s).

(** [s.includes(sub)]: [sub] occurs in [s] at some position. *)
Fixpoint includes (s sub : string) : bool :=
  prefix sub s ||
  match s with
  | EmptyString => false
  | String _ s' => includes s' sub
  end.

(** A string made of white space only (the empty string included). *)
Fixpoint allWhiteSpace (s : string) : bool :=
  match s with
  | EmptyString => true
  | String c s' => isWhiteSpace c && allWhiteSpace s'
  end.

(** [sub] is a substring of [s]. *)
Definition Substring (sub s : string) : Prop :=
  exists pre post, s = pre ++ sub ++ post.

End JsString.
Import JsString.

(** ** Data delivered by the API *)

(** An event document.  [event_id] is the [_id] field; [date] is the value
    the server sends, which the client only ever passes to [new Date]. *)
Record Event : Type := mkEvent {
  event_id : string;
  title : string;
  college : string;
  date : string;
  eventType : string;
  registrationFee : nat;
  description : string;
  image : option string
}.

(** A registration document.  [registration_id] is [_id]; [eventId] is the
    populated event, [None] (JS [null]) once the event has been deleted. *)
Record Registration : Type := mkRegistration {
  registration_id : string;
  eventId : option Event;
  paymentStatus : string
}.

(** ** Component state (the [useState] cells of each screen) *)

Record HomeState : Type := mkHome {
  events : list Event;
  filteredEvents : list Event;
  home_loading : bool;
  home_error : option string;
  searchQuery : string
}.

Record DetailsState : Type := mkDetails {
  route_event : Event;
  details_loading : bool;
  details_error : option string
}.

Record RegistrationsState : Type := mkRegs {
  registrations : list Registration;
  regs_loading : bool;
  regs_error : option string
}.

(** Calls of [./api/api] that go to the network. *)
Inductive ApiCall : Type :=
| GetEvents
| RegisterForEvent (eventId token : string)
| GetRegistrations (token : string)
| CancelRegistration (registrationId token : string).

(** What a handler does to the outside, in program order. *)
Inductive Effect : Type :=
| Alert (heading message : string)
| ConsoleError (label : string)
| GoBack
| Network (call : ApiCall).

Record App : Type := mkApp {
  home : HomeState;
  details : DetailsState;
  myRegistrations : RegistrationsState;
  dialog : option string;
  effects : list Effect
}.

(** *** State setters *)

Definition setEvents (d : list Event) (a : App) : App :=
  let h := home a in
  mkApp (mkHome d (filteredEvents h) (home_loading h) (home_error h) (searchQuery h))
        (details a) (myRegistrations a) (dialog a) (effects a).

Definition setFilteredEvents (d : list Event) (a : App) : App :=
  let h := home a in
  mkApp (mkHome (events h) d (home_loading h) (home_error h) (searchQuery h))
        (details a) (myRegistrations a) (dialog a) (effects a).

Definition setHomeLoading (b : bool) (a : App) : App :=
  let h := home a in
  mkApp (mkHome (events h) (filteredEvents h) b (home_error h) (searchQuery h))
        (details a) (myRegistrations a) (dialog a) (effects a).

Definition setHomeError (e : option string) (a : App) : App :=
  let h := home a in
  mkApp (mkHome (events h) (filteredEvents h) (home_loading h) e (searchQuery h))
        (details a) (myRegistrations a) (dialog a) (effects a).

Definition setSearchQuery (q : string) (a : App) : App :=
  let h := home a in
  mkApp (mkHome (events h) (filteredEvents h) (home_loading h) (home_error h) q)
        (details a) (myRegistrations a) (dialog a) (effects a).

Definition setDetailsLoading (b : bool) (a : App) : App :=
  let d := details a in
  mkApp (home a) (mkDetails (route_event d) b (details_error d))
        (myRegistrations a) (dialog a) (effects a).

Definition setDetailsError (e : option string) (a : App) : App :=
  let d := details a in
  mkApp (home a) (mkDetails (route_event d) (details_loading d) e)
        (myRegistrations a) (dialog a) (effects a).

Definition setRegistrations (d : list Registration) (a : App) : App :=
  let r := myRegistrations a in
  mkApp (home a) (details a) (mkRegs d (regs_loading r) (regs_error r))
        (dialog a) (effects a).

Definition setRegsLoading (b : bool) (a : App) : App :=
  let r := myRegistrations a in
  mkApp (home a) (details a) (mkRegs (registrations r) b (regs_error r))
        (dialog a) (effects a).

Definition setRegsError (e : option string) (a : App) : App :=
  let r := myRegistrations a in
  mkApp (home a) (details a) (mkRegs (registrations r) (regs_loading r) e)
        (dialog a) (effects a).

Definition setDialog (d : option string) (a : App) : App :=
  mkApp (home a) (details a) (myRegistrations a) d (effects a).

Definition emit (e : Effect) (a : App) : App :=
  mkApp (home a) (details a) (myRegistrations a) (dialog a) (effects a ++ [e]).

(** ** Asynchronous handlers

    An [async] function runs synchronously up to its next [await] and is
    resumed with the value the awaited promise settles to.  A [Task] is what
    is left of such a function at an [await]: the request it waits on and the
    rest of its body. *)

Inductive Settled (A : Type) : Type :=
| Fulfilled (value : A)
| Rejected.
Arguments Fulfilled {A} value.
Arguments Rejected {A}.

#[local] Set Warnings "-register-all".
Inductive Task : Type :=
| Finished
| AwaitToken (k : Settled (option string) -> App -> App * Task)
| AwaitGetEvents (k : Settled (list Event) -> App -> App * Task)
| AwaitGetRegistrations (token : string)
    (k : Settled (list Registration) -> App -> App * Task)
| AwaitRegisterForEvent (eventId token : string)
    (k : Settled unit -> App -> App * Task)
| AwaitCancelRegistration (registrationId token : string)
    (k : Settled unit -> App -> App * Task).

#[local] Set Warnings "register-all".

(** [!token]: [null] and the empty string are both falsy. *)
Definition falsy (token : option string) : bool :=
  match token with
  | None => true
  | Some t => (t =? EmptyString)%string
  end.

(** The network call a suspended task is waiting on, if any
    ([AsyncStorage.getItem] is a local read). *)
Definition awaitedCall (t : Task) : option ApiCall :=
  match t with
  | Finished | AwaitToken _ => None
  | AwaitGetEvents _ => Some GetEvents
  | AwaitGetRegistrations token _ => Some (GetRegistrations token)
  | AwaitRegisterForEvent e token _ => Some (RegisterForEvent e token)
  | AwaitCancelRegistration r token _ => Some (CancelRegistration r token)
  end.

Section Screens.

(** [toLocaleDateString d] is [new Date(d).toLocaleDateString()]; its result
    depends on the locale and time zone of the device. *)
Variable toLocaleDateString : string -> string.

(** *** HomeScreen *)

Definition fetchEvents (a : App) : App * Task :=
  (a, AwaitGetEvents (fun response a =>
        match response with
        | Fulfilled data =>
            (setHomeLoading false (setFilteredEvents data (setEvents data a)),
             Finished)
        | Rejected =>
            (emit (ConsoleError EmptyString)
               (setHomeLoading false
                  (setHomeError
                     (Some "Failed to fetch events. Please try again later.") a)),
             Finished)
        end)).

(** The callback given to [events.filter]. *)
Definition eventMatches (lowerCaseQuery : string) (event : Event) : bool :=
  let title := toLowerCase (title event) in
  let college := toLowerCase (college event) in
  let date := toLowerCase (toLocaleDateString (date event)) in
  includes title lowerCaseQuery ||
  includes college lowerCaseQuery ||
  includes date lowerCaseQuery.

(** The list [handleSearch] hands to [setFilteredEvents]. *)
Definition filterEvents (events : list Event) (query : string) : list Event :=
  if (trim query =? EmptyString)%string then events
  else
    let lowerCaseQuery := toLowerCase query in
    filter (eventMatches lowerCaseQuery) events.

Definition handleSearch (query : string) (a : App) : App :=
  let a1 := setSearchQuery query a in
  setFilteredEvents (filterEvents (events (home a)) query) a1.

Definition clearSearch (a : App) : App :=
  setFilteredEvents (events (home a)) (setSearchQuery EmptyString a).

Inductive HomeView : Type :=
| HomeLoadingView
| HomeErrorView (message : string)
| HomeListView (searchText : string) (data : list Event).

(** The three [return]s of [HomeScreen]. *)
Definition renderHome (h : HomeState) : HomeView :=
  if home_loading h then HomeLoadingView
  else
    match home_error h with
    | Some message => HomeErrorView message
    | None => HomeListView (searchQuery h) (filteredEvents h)
    end.

(** *** EventDetailsScreen *)

Definition handleRegister (a : App) : App * Task :=
  let a := setDetailsError None (setDetailsLoading true a) in
  (a, AwaitToken (fun read a =>
    match read with
    | Fulfilled token =>
        if falsy token then
          let a := setDetailsError (Some "Please log in to register for an event.") a in
          let a := setDetailsLoading false a in
          (setDetailsLoading false a, Finished)
        else
          let token := match token with Some t => t | None => EmptyString end in
          (a, AwaitRegisterForEvent (event_id (route_event (details a))) token
                (fun ack a =>
                   match ack with
                   | Fulfilled _ =>
                       let a := emit (Alert "Success" "Registration successful!") a in
                       let a := emit GoBack a in
                       (setDetailsLoading false a, Finished)
                   | Rejected =>
                       let a := setDetailsError
                                  (Some "Failed to register for the event. Please try again.") a in
                       let a := emit (ConsoleError "Registration error:") a in
                       (setDetailsLoading false a, Finished)
                   end))
    | Rejected =>
        let a := setDetailsError
                   (Some "Failed to register for the event. Please try again.") a in
        let a := emit (ConsoleError "Registration error:") a in
        (setDetailsLoading false a, Finished)
    end)).

(** *** MyRegistrationsScreen *)

Definition fetchRegistrationsFailed (a : App) : App * Task :=
  let a := setRegsError (Some "Failed to fetch registrations. Please try again later.") a in
  let a := setRegsLoading false a in
  (emit (ConsoleError "Fetch registrations error:") a, Finished).

Definition fetchRegistrations (a : App) : App * Task :=
  let a := setRegsLoading true a in
  (a, AwaitToken (fun read a =>
    match read with
    | Fulfilled token =>
        if falsy token then
          let a := setRegsError (Some "Please log in to view your registrations.") a in
          (setRegsLoading false a, Finished)
        else
          let token := match token with Some t => t | None => EmptyString end in
          (a, AwaitGetRegistrations token (fun response a =>
                match response with
                | Fulfilled data =>
                    (setRegsLoading false (setRegistrations data a), Finished)
                | Rejected => fetchRegistrationsFailed a
                end))
    | Rejected => fetchRegistrationsFailed a
    end)).

(** [handleCancelRegistration] opens the confirmation dialog; nothing else
    happens until one of its buttons is pressed. *)
Definition handleCancelRegistration (registrationId : string) (a : App) : App :=
  setDialog (Some registrationId)
    (emit (Alert "Cancel Registration"
                 "Are you sure you want to cancel this registration?") a).

Definition cancelFailed (a : App) : App * Task :=
  let a := emit (Alert "Error" "Failed to cancel registration. Please try again.") a in
  (emit (ConsoleError "Cancel registration error:") a, Finished).

(** The [onPress] of the dialog's "Yes" button. *)
Definition confirmCancel (registrationId : string) (a : App) : App * Task :=
  (a, AwaitToken (fun read a =>
    match read with
    | Fulfilled token =>
        if falsy token then
          (setRegsError (Some "Please log in to cancel a registration.") a, Finished)
        else
          let token := match token with Some t => t | None => EmptyString end in
          (a, AwaitCancelRegistration registrationId token (fun ack a =>
                match ack with
                | Fulfilled _ =>
                    let a := emit (Alert "Success"
                                         "Registration cancelled successfully!") a in
                    fetchRegistrations a
                | Rejected => cancelFailed a
                end))
    | Rejected => cancelFailed a
    end)).

Definition getStatusColor (status : string) : string :=
  let s := toLowerCase status in
  if (s =? "paid")%string then "#28a745"
  else if (s =? "pending")%string then "#ffc107"
  else "#6c757d".

(** What [renderRegistration] returns.  [cancelTarget] is the id the card's
    Cancel button passes to [handleCancelRegistration]. *)
Inductive RegistrationCard : Type :=
| EventNotFoundCard (cancelTarget : string)
| EventCard (title college date : string) (status statusColor : string)
    (cancelTarget : string).

Definition renderRegistration (item : Registration) : RegistrationCard :=
  match eventId item with
  | None => EventNotFoundCard (registration_id item)
  | Some ev =>
      EventCard (title ev) (college ev) (toLocaleDateString (date ev))
        (paymentStatus item) (getStatusColor (paymentStatus item))
        (registration_id item)
  end.

Definition cancelTarget (c : RegistrationCard) : string :=
  match c with
  | EventNotFoundCard t => t
  | EventCard _ _ _ _ _ t => t
  end.

Inductive RegistrationsView : Type :=
| RegsLoadingView
| RegsErrorView (message : string)
| RegsListView (cards : list RegistrationCard).

Definition renderMyRegistrations (r : RegistrationsState) : RegistrationsView :=
  if regs_loading r then RegsLoadingView
  else
    match regs_error r with
    | Some message => RegsErrorView message
    | None => RegsListView (map renderRegistration (registrations r))
    end.

(** ** The event loop

    JavaScript runs one handler at a time; handlers interleave only at their
    [await]s.  [inflight] holds the suspended tasks in the order they were
    started; the environment settles them in any order. *)

Record Sys : Type := mkSys {
  app : App;
  inflight : list Task
}.

Inductive Response : Type :=
| TokenRead (v : Settled (option string))
| EventsResponse (v : Settled (list Event))
| RegistrationsResponse (v : Settled (list Registration))
| Ack (v : Settled unit).

Inductive Action : Type :=
| FocusHome
| FocusMyRegistrations
| Search (query : string)
| ClearSearch
| PressRegister
| PressCancel (registrationId : string)
| PressYes
| PressNo
| Settle (n : nat) (r : Response).

(** The rest of a suspended task, given what its promise settled to; [None]
    when the response is not one its request can produce. *)
Definition resume (t : Task) (r : Response) : option (App -> App * Task) :=
  match t, r with
  | AwaitToken k, TokenRead v => Some (k v)
  | AwaitGetEvents k, EventsResponse v => Some (k v)
  | AwaitGetRegistrations _ k, RegistrationsResponse v => Some (k v)
  | AwaitRegisterForEvent _ _ k, Ack v => Some (k v)
  | AwaitCancelRegistration _ _ k, Ack v => Some (k v)
  | _, _ => None
  end.

(** Reaching [await api(...)] sends the request. *)
Definition issue (t : Task) (a : App) : App :=
  match awaitedCall t with
  | Some c => emit (Network c) a
  | None => a
  end.

(** Call an async function: run it to its first [await]. *)
Definition start (f : App -> App * Task) (s : Sys) : Sys :=
  let (a, t) := f (app s) in
  match t with
  | Finished => mkSys a (inflight s)
  | _ => mkSys (issue t a) (inflight s ++ [t])
  end.

(** Settle the [n]-th suspended task with [r] and run it to its next
    [await] or to its end. *)
Definition settle (n : nat) (r : Response) (s : Sys) : option Sys :=
  match nth_error (inflight s) n with
  | None => None
  | Some t =>
      match resume t r with
      | None => None
      | Some k =>
          let (a, t') := k (app s) in
          match t' with
          | Finished => Some (mkSys a (firstn n (inflight s) ++ skipn (S n) (inflight s)))
          | _ => Some (mkSys (issue t' a)
                        (firstn n (inflight s) ++ t' :: skipn (S n) (inflight s)))
          end
      end
  end.

(** The search box is on screen only in the list view of [HomeScreen]. *)
Definition searchBoxShown (a : App) : bool :=
  match renderHome (home a) with
  | HomeListView _ _ => true
  | _ => false
  end.

(** A Cancel button bound to [registrationId] is on screen. *)
Definition cancelButtonShown (registrationId : string) (a : App) : bool :=
  match renderMyRegistrations (myRegistrations a) with
  | RegsListView cards =>
      existsb (fun c => (cancelTarget c =? registrationId)%string) cards
  | _ => false
  end.

(** One user or environment event.  [None]: the event cannot happen in this
    state (the control is not on screen, or nothing is waiting for it). *)
Definition step (act : Action) (s : Sys) : option Sys :=
  match act with
  | FocusHome => Some (start fetchEvents s)
  | FocusMyRegistrations => Some (start fetchRegistrations s)
  | Search query =>
      if searchBoxShown (app s)
      then Some (mkSys (handleSearch query (app s)) (inflight s))
      else None
  | ClearSearch =>
      if searchBoxShown (app s) && negb (searchQuery (home (app s)) =? EmptyString)%string
      then Some (mkSys (clearSearch (app s)) (inflight s))
      else None
  | PressRegister =>
      if details_loading (details (app s)) then None
      else Some (start handleRegister s)
  | PressCancel registrationId =>
      if cancelButtonShown registrationId (app s)
      then Some (mkSys (handleCancelRegistration registrationId (app s)) (inflight s))
      else None
  | PressYes =>
      match dialog (app s) with
      | Some registrationId =>
          Some (start (confirmCancel registrationId)
                  (mkSys (setDialog None (app s)) (inflight s)))
      | None => None
      end
  | PressNo =>
      match dialog (app s) with
      | Some _ => Some (mkSys (setDialog None (app s)) (inflight s))
      | None => None
      end
  | Settle n r => settle n r s
  end.

Fixpoint run (acts : list Action) (s : Sys) : option Sys :=
  match acts with
  | [] => Some s
  | act :: rest =>
      match step act s with
      | Some s' => run rest s'
      | None => None
      end
  end.

(** *** Observations *)

Definition apiCalls (s : Sys) : list ApiCall :=
  flat_map (fun e => match e with Network c => [c] | _ => [] end)
           (effects (app s)).

(** The network requests that have been sent and not yet settled. *)
Definition pendingCalls (s : Sys) : list ApiCall :=
  flat_map (fun t => match awaitedCall t with Some c => [c] | None => [] end)
           (inflight s).

Definition ledger (s : Sys) : list Registration :=
  registrations (myRegistrations (app s)).

Definition catalog (s : Sys) : list Event := events (home (app s)).

Definition visibleEvents (s : Sys) : list Event := filteredEvents (home (app s)).

(** The state of a freshly mounted application showing [ev] in the details
    screen. *)
Definition initial (ev : Event) : Sys :=
  mkSys (mkApp (mkHome [] [] true None EmptyString)
               (mkDetails ev false None)
               (mkRegs [] true None)
               None [])
        [].

End Screens.

(** ** A concrete device and sample data *)

Definition stripZero (s : string) : string :=
  match s with
  | String "0"%char rest => rest
  | _ => s
  end.

(** [toLocaleDateString] of a device set to en-US and UTC, on dates the
    server sends as [YYYY-MM-DD...]: month/day/year without padding. *)
Definition enUS (d : string) : string :=
  stripZero (substring 5 2 d) ++ "/" ++ stripZero (substring 8 2 d) ++ "/" ++
  substring 0 4 d.

Definition hackDay : Event :=
  mkEvent "e1" "Hack Day" "MIT" "2025-03-14" "technical" 0 EmptyString None.

Definition springFest : Event :=
  mkEvent "e2" "Spring Fest" "Stanford" "2025-04-02" "cultural" 100 EmptyString None.

Definition r1 : Registration := mkRegistration "r1" (Some hackDay) "paid".

Definition r2 : Registration := mkRegistration "r2" None "pending".

(** The match the search promises, in words: the lower-cased query occurs in
    the lower-cased title, college or formatted date of the event. *)
Definition QueryMatches (toLocaleDateString : string -> string)
    (query : string) (e : Event) : Prop :=
  Substring (toLowerCase query) (toLowerCase (title e)) \/
  Substring (toLowerCase query) (toLowerCase (college e)) \/
  Substring (toLowerCase query) (toLowerCase (toLocaleDateString (date e))).

(** ** What every handler keeps

    A task is [Good] when each of its continuations, resumed with any value
    in any state, changes the state only in ways [Keeps] allows, sends only
    calls [callOk] allows, and leaves a task that is [Good] again. *)

Section TaskInvariant.

Variable Keeps : App -> App -> Prop.
Variable callOk : ApiCall -> Prop.

#[local] Set Warnings "-register-all".
Inductive Good : Task -> Prop :=
| Good_Finished : Good Finished
| Good_AwaitToken k :
    (forall r a, Keeps a (fst (k r a)) /\ Good (snd (k r a))) ->
    Good (AwaitToken k)
| Good_AwaitGetEvents k :
    callOk GetEvents ->
    (forall r a, Keeps a (fst (k r a)) /\ Good (snd (k r a))) ->
    Good (AwaitGetEvents k)
| Good_AwaitGetRegistrations token k :
    callOk (GetRegistrations token) ->
    (forall r a, Keeps a (fst (k r a)) /\ Good (snd (k r a))) ->
    Good (AwaitGetRegistrations token k)
| Good_AwaitRegisterForEvent e token k :
    callOk (RegisterForEvent e token) ->
    (forall r a, Keeps a (fst (k r a)) /\ Good (snd (k r a))) ->
    Good (AwaitRegisterForEvent e token k)
| Good_AwaitCancelRegistration i token k :
    callOk (CancelRegistration i token) ->
    (forall r a, Keeps a (fst (k r a)) /\ Good (snd (k r a))) ->
    Good (AwaitCancelRegistration i token k).

#[local] Set Warnings "register-all".

End TaskInvariant.

(** The visible list is the catalog with some events left out. *)
Definition Sublisted (a : App) : Prop :=
  exists keep, filteredEvents (home a) = filter keep (events (home a)).

(** The bearer token a call carries. *)
Definition tokenOfCall (c : ApiCall) : option string :=
  match c with
  | GetEvents => None
  | RegisterForEvent _ token => Some token
  | GetRegistrations token => Some token
  | CancelRegistration _ token => Some token
  end.

Definition Authenticated (c : ApiCall) : Prop :=
  tokenOfCall c <> Some EmptyString.

Definition CallsAuthenticated (a : App) : Prop :=
  forall c, In (Network c) (effects a) -> Authenticated c.

(** With a blank query on screen the visible list is the whole catalog. *)
Definition BlankShowsAll (a : App) : Prop :=
  allWhiteSpace (searchQuery (home a)) = true ->
  filteredEvents (home a) = events (home a).

(** What no handler of the three screens undoes. *)
Definition Preserves (a a' : App) : Prop :=
  (Sublisted a -> Sublisted a')
  /\ (BlankShowsAll a -> BlankShowsAll a')
  /\ (home_error (home a) <> None -> home_error (home a') <> None)
  /\ (regs_error (myRegistrations a) <> None ->
      regs_error (myRegistrations a') <> None)
  /\ (CallsAuthenticated a -> CallsAuthenticated a')
  /\ route_event (details a') = route_event (details a).

(** ** The other screens

    [LoginScreen], [OrganizerRegisterScreen], [AddEventScreen],
    [MyProfileScreen] and [MainTabs] keep their own state and talk to
    storage, the API and the device.  Their handlers are [Job]s over the state
    of their own component. *)

Record Profile : Type := mkProfile {
  profile_name : string;
  profile_email : string;
  profile_college : string;
  profile_rollNo : option string;
  profile_role : string
}.

(** An asset of the image picker. *)
Record Asset : Type := mkAsset { uri : string }.

(** A part of a multipart form. *)
Inductive FormValue : Type :=
| Text (value : string)
| File (fileUri fileType fileName : string).

(** Everything these handlers [await]. *)
Inductive Call : Type :=
| GetItem
| SetItem (value : string)
| RemoveItem
| LoginUser (email password : string)
| PostAuthRegister (name email password college role : string)
| PostEvents (form : list (string * FormValue)) (authorization contentType : string)
| GetProfile (token : string)
| UpdateProfile (name rollNo token : string)
| GetUsersProfile (authorization : string)
| RequestMediaLibraryPermissions
| LaunchImageLibrary.

(** What the promise of a call fulfils with: the stored token, the token of
    [response.data], a profile, [response.data.role], [granted], and
    [canceled] with [assets]. *)
Definition replyOf (c : Call) : Type :=
  match c with
  | GetItem => option string
  | LoginUser _ _ => string
  | GetProfile _ => Profile
  | UpdateProfile _ _ _ => Profile
  | GetUsersProfile _ => string
  | RequestMediaLibraryPermissions => bool
  | LaunchImageLibrary => (bool * list Asset)%type
  | _ => unit
  end.

Inductive Outward : Type :=
| Alerted (heading message : string)
| ConsoleLogged (label : string)
| ConsoleErrored (label : string)
| Navigated (route : string)
| Replaced (route : string)
| ResetTo (route : string).

Inductive Entry : Type :=
| Out (o : Outward)
| Sent (c : Call).

(** A component while one of its handlers runs: its state cells and what it
    has done to the outside so far. *)
Record Run (St : Type) : Type := mkRun {
  state : St;
  log : list Entry
}.
Arguments mkRun {St} state log.
Arguments state {St} r.
Arguments log {St} r.

Definition upd {St : Type} (f : St -> St) (r : Run St) : Run St :=
  mkRun (f (state r)) (log r).

Definition say {St : Type} (o : Outward) (r : Run St) : Run St :=
  mkRun (state r) (log r ++ [Out o]).

#[local] Set Warnings "-register-all".
Inductive Job (St : Type) : Type :=
| Done
| Await (c : Call) (k : Settled (replyOf c) -> Run St -> Run St * Job St).
#[local] Set Warnings "register-all".
Arguments Done {St}.
Arguments Await {St} c k.

(** The device and the server: what each call settles to. *)
Definition World : Type := forall c : Call, Settled (replyOf c).

(** Run a job through at most [fuel] of its [await]s.  Reaching an [await]
    makes the call; with no fuel left the call stays pending. *)
Fixpoint exec {St : Type} (fuel : nat) (w : World) (r : Run St) (j : Job St)
    : Run St * Job St :=
  match j with
  | Done => (r, Done)
  | Await c k =>
      let r := mkRun (state r) (log r ++ [Sent c]) in
      match fuel with
      | O => (r, j)
      | S n => let (r', j') := k (w c) r in exec n w r' j'
      end
  end.

(** Call the handler [h] in state [st] and let it run. *)
Definition call {St : Type} (fuel : nat) (w : World)
    (h : Run St -> Run St * Job St) (st : St) : Run St * Job St :=
  let (r, j) := h (mkRun st []) in exec fuel w r j.

(** The requests in a log, in order. *)
Definition sent (l : list Entry) : list Call :=
  flat_map (fun e => match e with Sent c => [c] | Out _ => [] end) l.

(** What was done to the outside apart from requests, in order. *)
Definition outward (l : list Entry) : list Outward :=
  flat_map (fun e => match e with Out o => [o] | Sent _ => [] end) l.

Module LoginScreen.

Record State : Type := mkState {
  email : string;
  password : string;
  error : option string;
  loading : bool
}.

Definition setError (e : option string) (s : State) : State :=
  mkState (email s) (password s) e (loading s).

Definition setLoading (b : bool) (s : State) : State :=
  mkState (email s) (password s) (error s) b.

Definition loginFailed (r : Run State) : Run State * Job State :=
  let r := upd (setLoading false) r in
  let r := say (Alerted "Error" "Invalid email or password. Please try again.") r in
  (say (ConsoleErrored "Login error:") r, Done).

Definition handleLogin (r : Run State) : Run State * Job State :=
  let email := email (state r) in
  let password := password (state r) in
  let r := upd (setLoading true) r in
  let r := upd (setError None) r in
  (r, Await (LoginUser email password) (fun response r =>
    match response with
    | Fulfilled token =>
        let r := say (ConsoleLogged "Login token:") r in
        (r, Await (SetItem token) (fun stored r =>
              match stored with
              | Fulfilled _ => (say (Replaced "Main") r, Done)
              | Rejected => loginFailed r
              end))
    | Rejected => loginFailed r
    end)).

End LoginScreen.

Module OrganizerRegisterScreen.

Record State : Type := mkState {
  name : string;
  email : string;
  password : string;
  college : string;
  error : option string;
  loading : bool
}.

Definition setError (e : option string) (s : State) : State :=
  mkState (name s) (email s) (password s) (college s) e (loading s).

Definition setLoading (b : bool) (s : State) : State :=
  mkState (name s) (email s) (password s) (college s) (error s) b.

Definition handleRegister (r : Run State) : Run State * Job State :=
  let s := state r in
  let r := upd (setLoading true) r in
  let r := upd (setError None) r in
  (r, Await (PostAuthRegister (name s) (email s) (password s) (college s) "organizer")
        (fun response r =>
           match response with
           | Fulfilled _ =>
               let r := say (Alerted "Success"
                               "Organizer account created! Please log in.") r in
               let r := say (Navigated "Login") r in
               (upd (setLoading false) r, Done)
           | Rejected =>
               let r := upd (setError (Some "Failed to register. Please try again.")) r in
               let r := say (ConsoleErrored "Organizer registration error:") r in
               (upd (setLoading false) r, Done)
           end)).

End OrganizerRegisterScreen.

Module AddEventScreen.

(** [date] is the picked date as [toISOString] renders it. *)
Record State : Type := mkState {
  title : string;
  description : string;
  date : string;
  college : string;
  type : string;
  registrationFee : string;
  image : option Asset;
  error : option string;
  loading : bool;
  showDatePicker : bool
}.

Definition setImage (i : option Asset) (s : State) : State :=
  mkState (title s) (description s) (date s) (college s) (type s)
          (registrationFee s) i (error s) (loading s) (showDatePicker s).

Definition setError (e : option string) (s : State) : State :=
  mkState (title s) (description s) (date s) (college s) (type s)
          (registrationFee s) (image s) e (loading s) (showDatePicker s).

Definition setLoading (b : bool) (s : State) : State :=
  mkState (title s) (description s) (date s) (college s) (type s)
          (registrationFee s) (image s) (error s) b (showDatePicker s).

Definition pickImage (r : Run State) : Run State * Job State :=
  (r, Await RequestMediaLibraryPermissions (fun permissionResult r =>
    match permissionResult with
    | Fulfilled false =>
        (say (Alerted "Permission Denied"
                "Permission to access camera roll is required!") r, Done)
    | Fulfilled true =>
        (r, Await LaunchImageLibrary (fun result r =>
              match result with
              | Fulfilled (canceled, assets) =>
                  if canceled then (r, Done)
                  else (upd (setImage (nth_error assets 0)) r, Done)
              | Rejected => (r, Done)
              end))
    | Rejected => (r, Done)
    end)).

(** The [FormData] the handler builds. *)
Definition formData (s : State) : list (string * FormValue) :=
  [("title", Text (title s));
   ("description", Text (description s));
   ("date", Text (date s));
   ("college", Text (college s));
   ("type", Text (type s));
   ("registrationFee", Text (registrationFee s))]
  ++ match image s with
     | Some i => [("image", File (uri i) "image/jpeg" "event-image.jpg")]
     | None => []
     end.

Definition createFailed (r : Run State) : Run State * Job State :=
  let r := upd (setError (Some "Failed to create event. Please try again.")) r in
  let r := say (ConsoleErrored "Create event error:") r in
  (upd (setLoading false) r, Done).

Definition handleCreateEvent (r : Run State) : Run State * Job State :=
  let s := state r in
  let r := upd (setLoading true) r in
  let r := upd (setError None) r in
  (r, Await GetItem (fun read r =>
    match read with
    | Fulfilled token =>
        if falsy token then
          let r := upd (setError (Some "Please log in to create an event.")) r in
          let r := upd (setLoading false) r in
          (upd (setLoading false) r, Done)
        else
          let token := match token with Some t => t | None => EmptyString end in
          (r, Await (PostEvents (formData s) ("Bearer " ++ token) "multipart/form-data")
                (fun response r =>
                   match response with
                   | Fulfilled _ =>
                       let r := say (Alerted "Success" "Event created successfully!") r in
                       let r := say (Navigated "Home") r in
                       (upd (setLoading false) r, Done)
                   | Rejected => createFailed r
                   end))
    | Rejected => createFailed r
    end)).

End AddEventScreen.

Module MyProfileScreen.

Record State : Type := mkState {
  profile : option Profile;
  name : string;
  rollNo : string;
  loading : bool;
  error : option string;
  updateError : option string;
  updateLoading : bool
}.

Definition setProfile (p : option Profile) (s : State) : State :=
  mkState p (name s) (rollNo s) (loading s) (error s) (updateError s) (updateLoading s).

Definition setName (n : string) (s : State) : State :=
  mkState (profile s) n (rollNo s) (loading s) (error s) (updateError s) (updateLoading s).

Definition setRollNo (n : string) (s : State) : State :=
  mkState (profile s) (name s) n (loading s) (error s) (updateError s) (updateLoading s).

Definition setLoading (b : bool) (s : State) : State :=
  mkState (profile s) (name s) (rollNo s) b (error s) (updateError s) (updateLoading s).

Definition setError (e : option string) (s : State) : State :=
  mkState (profile s) (name s) (rollNo s) (loading s) e (updateError s) (updateLoading s).

Definition setUpdateError (e : option string) (s : State) : State :=
  mkState (profile s) (name s) (rollNo s) (loading s) (error s) e (updateLoading s).

Definition setUpdateLoading (b : bool) (s : State) : State :=
  mkState (profile s) (name s) (rollNo s) (loading s) (error s) (updateError s) b.

(** The state [useState] gives the component when it mounts. *)
Definition mounted : State :=
  mkState None EmptyString EmptyString true None None false.

Definition fetchFailed (r : Run State) : Run State * Job State :=
  let r := upd (setError (Some "Failed to fetch profile. Please try again later.")) r in
  let r := upd (setLoading false) r in
  (say (ConsoleErrored "Fetch profile error:") r, Done).

(** [x || ''] *)
Definition orEmpty (x : option string) : string :=
  match x with
  | Some v => v
  | None => EmptyString
  end.

Definition fetchProfile (r : Run State) : Run State * Job State :=
  (r, Await GetItem (fun read r =>
    match read with
    | Fulfilled token =>
        if falsy token then
          let r := upd (setError (Some "Please log in to view your profile.")) r in
          (upd (setLoading false) r, Done)
        else
          let token := match token with Some t => t | None => EmptyString end in
          (r, Await (GetProfile token) (fun response r =>
                match response with
                | Fulfilled data =>
                    let r := upd (setProfile (Some data)) r in
                    let r := upd (setName (profile_name data)) r in
                    let r := upd (setRollNo (orEmpty (profile_rollNo data))) r in
                    (upd (setLoading false) r, Done)
                | Rejected => fetchFailed r
                end))
    | Rejected => fetchFailed r
    end)).

Definition updateFailed (r : Run State) : Run State * Job State :=
  let r := upd (setUpdateError (Some "Failed to update profile. Please try again.")) r in
  let r := say (ConsoleErrored "Update profile error:") r in
  (upd (setUpdateLoading false) r, Done).

Definition handleUpdateProfile (r : Run State) : Run State * Job State :=
  let name := name (state r) in
  let rollNo := rollNo (state r) in
  let r := upd (setUpdateLoading true) r in
  let r := upd (setUpdateError None) r in
  (r, Await GetItem (fun read r =>
    match read with
    | Fulfilled token =>
        if falsy token then
          let r := upd (setUpdateError (Some "Please log in to update your profile.")) r in
          let r := upd (setUpdateLoading false) r in
          (upd (setUpdateLoading false) r, Done)
        else
          let token := match token with Some t => t | None => EmptyString end in
          (r, Await (UpdateProfile name rollNo token) (fun response r =>
                match response with
                | Fulfilled user =>
                    let r := upd (setProfile (Some user)) r in
                    let r := say (Alerted "Success" "Profile updated successfully!") r in
                    (upd (setUpdateLoading false) r, Done)
                | Rejected => updateFailed r
                end))
    | Rejected => updateFailed r
    end)).

Definition handleLogout (r : Run State) : Run State * Job State :=
  (r, Await RemoveItem (fun removed r =>
    match removed with
    | Fulfilled _ => (say (ResetTo "Login") r, Done)
    | Rejected =>
        let r := say (Alerted "Error" "Failed to log out. Please try again.") r in
        (say (ConsoleErrored "Logout error:") r, Done)
    end)).







End MyProfileScreen.

Module MainTabs.

Definition State : Type := option string.

Definition fetchUserRole (r : Run State) : Run State * Job State :=
  (r, Await GetItem (fun read (r : Run State) =>
    match read with
    | Fulfilled token =>
        if falsy token then (r, Done)
        else
          let token := match token with Some t => t | None => EmptyString end in
          (r, Await (GetUsersProfile ("Bearer " ++ token))
                (fun response (r : Run State) =>
                match response with
                | Fulfilled role => (upd (fun _ => Some (role : string)) r, Done)
                | Rejected => (say (ConsoleErrored "Fetch user role error:") r, Done)
                end))
    | Rejected => (say (ConsoleErrored "Fetch user role error:") r, Done)
    end)).

(** The [Tab.Screen]s the navigator is given, in order. *)
Definition tabs (userRole : State) : list string :=
  ["Home"; "MyRegistrations"]
  ++ (match userRole with
      | Some role => if (role =? "organizer")%string then ["AddEvent"] else []
      | None => []
      end)
  ++ ["MyProfile"].

End MainTabs.



(** ** Facts about the string methods *)

Lemma prefix_append (p s : string) :
  prefix p s = true <-> exists post, s = p ++ post.
Proof.
  revert s; induction p as [|c p IH]; intros s.
  - split; [intros _; now exists s | now destruct s].
  - destruct s as [|d s]; simpl.
    + split; [discriminate | intros [post H]; discriminate].
    + destruct (ascii_dec c d) as [->|ne].
      * rewrite IH. split; intros [post H]; exists post;
          [now rewrite H | now inversion H].
      * split; [discriminate | intros [post H]; inversion H; congruence].
Qed.

Lemma includes_substring (s sub : string) :
  includes s sub = true <-> Substring sub s.
Proof.
  unfold Substring. induction s as [|c s IH].
  - cbn [includes]. rewrite orb_false_r, prefix_append. split.
    + intros [post H]. now exists EmptyString, post.
    + intros [pre [post H]]. destruct pre; [now exists post|discriminate].
  - cbn [includes]. rewrite orb_true_iff, IH, prefix_append. split.
    + intros [[post H] | [pre [post H]]].
      * now exists EmptyString, post.
      * exists (String c pre), post. simpl. now rewrite H.
    + intros [pre [post H]]. destruct pre as [|d pre].
      * left. now exists post.
      * right. exists pre, post. now inversion H.
Qed.

Lemma trimStart_allWhiteSpace (s : string) :
  allWhiteSpace (trimStart s) = allWhiteSpace s.
Proof.
  induction s as [|c s IH]; simpl; [reflexivity|].
  destruct (isWhiteSpace c) eqn:E; simpl; [exact IH | now rewrite E].
Qed.

Lemma trimEnd_empty (s : string) :
  trimEnd s = EmptyString <-> allWhiteSpace s = true.
Proof.
  induction s as [|c s IH]; simpl; [tauto|].
  destruct (trimEnd s) eqn:T.
  - destruct (isWhiteSpace c); simpl.
    + rewrite <- IH. tauto.
    + split; discriminate.
  - split; [discriminate|].
    rewrite andb_true_iff. intros [_ H]. apply IH in H. discriminate.
Qed.

(** [query.trim() === ''] holds exactly for the queries made of white space. *)
Lemma trim_empty (s : string) :
  (trim s =? EmptyString)%string = allWhiteSpace s.
Proof.
  unfold trim.
  destruct (allWhiteSpace s) eqn:A.
  - apply String.eqb_eq, trimEnd_empty. now rewrite trimStart_allWhiteSpace.
  - apply String.eqb_neq. intros H. apply trimEnd_empty in H.
    rewrite trimStart_allWhiteSpace in H. congruence.
Qed.

Lemma filter_filter_same {A : Type} (f : A -> bool) (l : list A) :
  filter f (filter f l) = filter f l.
Proof.
  induction l as [|x l IH]; simpl; [reflexivity|].
  destruct (f x) eqn:E; simpl; [rewrite E; now f_equal | exact IH].
Qed.

(** ** The search filter *)

Section Filter.

Variable toLocaleDateString : string -> string.

Lemma eventMatches_spec (query : string) (e : Event) :
  eventMatches toLocaleDateString (toLowerCase query) e = true <->
  QueryMatches toLocaleDateString query e.
Proof.
  unfold eventMatches, QueryMatches.
  rewrite !orb_true_iff, !includes_substring. tauto.
Qed.

Lemma filterEvents_unfold (C : list Event) (query : string) :
  filterEvents toLocaleDateString C query =
  if allWhiteSpace query then C
  else filter (eventMatches toLocaleDateString (toLowerCase query)) C.
Proof. unfold filterEvents. now rewrite trim_empty. Qed.

(** C1. [handleSearch] shows exactly the events whose lower-cased title,
    college or locale-formatted date contains the lower-cased query, in
    catalog order; a query that is empty or all white space shows the whole
    catalog. *)
Theorem handleSearch_filters (a : App) (query : string) :
  filteredEvents (home (handleSearch toLocaleDateString query a)) =
    (if allWhiteSpace query then events (home a)
     else filter (eventMatches toLocaleDateString (toLowerCase query))
                 (events (home a)))
  /\ (forall e, eventMatches toLocaleDateString (toLowerCase query) e = true <->
                QueryMatches toLocaleDateString query e)
  /\ searchQuery (home (handleSearch toLocaleDateString query a)) = query.
Proof.
  split; [|split].
  - unfold handleSearch. cbn. apply filterEvents_unfold.
  - intros e. apply eventMatches_spec.
  - reflexivity.
Qed.

(** C7. Filtering is a projection: filtering a filtered list again with the
    same query changes nothing, the empty query is the identity, and
    [handleSearch] leaves the catalog itself as it was. *)
Theorem filterEvents_projection (C : list Event) (query : string) (a : App) :
  filterEvents toLocaleDateString (filterEvents toLocaleDateString C query) query =
    filterEvents toLocaleDateString C query
  /\ filterEvents toLocaleDateString C EmptyString = C
  /\ events (home (handleSearch toLocaleDateString query a)) = events (home a).
Proof.
  split; [|split].
  - rewrite !filterEvents_unfold.
    destruct (allWhiteSpace query); [reflexivity | apply filter_filter_same].
  - reflexivity.
  - reflexivity.
Qed.

End Filter.

(** ** Handlers running on the event loop *)

Lemma length_string_app (s t : string) :
  String.length (s ++ t) = String.length s + String.length t.
Proof. induction s as [|c s IH]; simpl; [reflexivity | now rewrite IH]. Qed.

Lemma toLowerCase_length (s : string) :
  String.length (toLowerCase s) = String.length s.
Proof. induction s as [|c s IH]; simpl; [reflexivity | now rewrite IH]. Qed.

Lemma Substring_length (sub s : string) :
  Substring sub s -> String.length sub <= String.length s.
Proof.
  intros [pre [post ->]]. rewrite !length_string_app. lia.
Qed.

Lemma includes_longer (s sub : string) :
  String.length s < String.length sub -> includes s sub = false.
Proof.
  intros H. destruct (includes s sub) eqn:E; [|reflexivity].
  apply includes_substring, Substring_length in E. lia.
Qed.

Section Sync.

Variable toLocaleDateString : string -> string.

(** Settling the task that was started last resumes it in place. *)
Lemma settle_last (a : App) (l : list Task) (t : Task) (r : Response)
    (k : App -> App * Task) :
  resume t r = Some k ->
  settle (length l) r (mkSys a (l ++ [t])) = Some (start k (mkSys a l)).
Proof.
  intros H. unfold settle, start. cbn [inflight app].
  rewrite nth_error_app2, Nat.sub_diag by lia. cbn [nth_error]. rewrite H.
  rewrite firstn_app, firstn_all, Nat.sub_diag, app_nil_r. cbn [firstn].
  rewrite skipn_app, skipn_all2 by lia.
  replace (S (length l) - length l) with 1 by lia. cbn [skipn app].
  rewrite !app_nil_r.
  destruct (k a) as [a' t']. destruct t'; reflexivity.
Qed.

(** A query longer than every searched field of [e] matches nothing. *)
Lemma eventMatches_long_query (q : string) (e : Event) :
  String.length (title e) < String.length q ->
  String.length (college e) < String.length q ->
  String.length (toLocaleDateString (date e)) < String.length q ->
  eventMatches toLocaleDateString (toLowerCase q) e = false.
Proof.
  intros Ht Hc Hd. unfold eventMatches.
  rewrite !includes_longer; rewrite ?toLowerCase_length; auto.
Qed.

(** C10. A successful catalog fetch stores the fetched list both as the
    catalog and as the visible list and leaves the query text alone; so with
    a query on screen the visible list is no longer the filter of the catalog
    by that query. *)
Theorem fetchEvents_shows_whole_catalog :
  (forall (s : Sys) (data : list Event),
     exists s',
       run toLocaleDateString [FocusHome; Settle (length (inflight s)) (EventsResponse (Fulfilled data))] s
         = Some s'
       /\ catalog s' = data
       /\ visibleEvents s' = data
       /\ searchQuery (home (app s')) = searchQuery (home (app s)))
  /\ (exists (query : string) (s' : Sys),
        run toLocaleDateString [FocusHome; Settle 0 (EventsResponse (Fulfilled [hackDay]));
             Search query;
             FocusHome; Settle 0 (EventsResponse (Fulfilled [hackDay]))]
            (initial hackDay) = Some s'
        /\ searchQuery (home (app s')) = query
        /\ allWhiteSpace query = false
        /\ visibleEvents s' = [hackDay]
        /\ filterEvents toLocaleDateString (catalog s') query = []).
Proof.
  split.
  - intros [a l] data. cbn [run step inflight].
    unfold start at 1. cbn [fetchEvents app inflight issue awaitedCall].
    erewrite settle_last by reflexivity.
    eexists; split; [reflexivity|]. now cbn.
  - exists (String "x" (title hackDay ++ college hackDay
                        ++ toLocaleDateString (date hackDay))).
    eexists. split; [reflexivity|]. cbn [app home searchQuery].
    split; [reflexivity|]. split; [reflexivity|]. split; [reflexivity|].
    rewrite filterEvents_unfold. cbn [allWhiteSpace isWhiteSpace].
    replace (isWhiteSpace "x") with false by reflexivity. cbn [andb].
    match goal with |- filter _ ?c = _ => change c with [hackDay] end.
    cbn [filter].
    rewrite eventMatches_long_query; [reflexivity| | |];
      cbn [String.length]; rewrite !length_string_app; lia.
Qed.

Lemma falsy_token (token : string) :
  token <> EmptyString -> falsy (Some token) = false.
Proof. intros H. now apply String.eqb_neq. Qed.

(** Settling a task anywhere in the queue resumes it where it stands. *)
Lemma settle_at (n : nat) (a : App) (l rest : list Task) (t : Task)
    (r : Response) (k : App -> App * Task) :
  n = length l ->
  resume t r = Some k ->
  settle n r (mkSys a (l ++ t :: rest)) =
  Some (let (a', t') := k a in
        match t' with
        | Finished => mkSys a' (l ++ rest)
        | _ => mkSys (issue t' a') (l ++ t' :: rest)
        end).
Proof.
  intros -> H. unfold settle. cbn [inflight app].
  rewrite nth_error_app2, Nat.sub_diag by lia. cbn [nth_error]. rewrite H.
  rewrite firstn_app, firstn_all, Nat.sub_diag, app_nil_r. cbn [firstn].
  rewrite skipn_app, skipn_all2 by lia.
  replace (S (length l) - length l) with 1 by lia. cbn [skipn app].
  destruct (k a) as [a' t']. destruct t'; reflexivity.
Qed.

Ltac resume_last :=
  erewrite settle_last by reflexivity; unfold start;
  cbn [app inflight issue awaitedCall].

(** C3. With no stored token (the read gives [null] or the empty string),
    the ledger refresh, register and cancel each stop with their
    "Please log in" error, and no request has been sent or is waiting. *)
Theorem absent_token_no_network_call (s : Sys) (token : option string)
    (registrationId : string) :
  falsy token = true ->
  let read := TokenRead (Fulfilled token) in
  let n := length (inflight s) in
  (exists s',
      settle n read (start fetchRegistrations s) = Some s'
      /\ regs_error (myRegistrations (app s'))
           = Some "Please log in to view your registrations."
      /\ apiCalls s' = apiCalls s /\ inflight s' = inflight s)
  /\ (exists s',
        settle n read (start handleRegister s) = Some s'
        /\ details_error (details (app s'))
             = Some "Please log in to register for an event."
        /\ apiCalls s' = apiCalls s /\ inflight s' = inflight s)
  /\ (exists s',
        settle n read (start (confirmCancel registrationId) s) = Some s'
        /\ regs_error (myRegistrations (app s'))
             = Some "Please log in to cancel a registration."
        /\ apiCalls s' = apiCalls s /\ inflight s' = inflight s).
Proof.
  intros H read n. subst read n. destruct s as [a l].
  repeat split.
  - unfold start at 1. cbn [fetchRegistrations app inflight issue awaitedCall].
    resume_last. rewrite H. eexists; split; [reflexivity|]. now cbn.
  - unfold start at 1. cbn [handleRegister app inflight issue awaitedCall].
    resume_last. rewrite H. eexists; split; [reflexivity|]. now cbn.
  - unfold start at 1. cbn [confirmCancel app inflight issue awaitedCall].
    resume_last. rewrite H. eexists; split; [reflexivity|]. now cbn.
Qed.

(** C6. A successful register sends the one request, confirms and navigates
    back; at no point of the operation does the local ledger change. *)
Theorem register_success_leaves_ledger (s : Sys) (token : string) :
  token <> EmptyString ->
  let n := length (inflight s) in
  let s0 := start handleRegister s in
  exists s1 s2,
    settle n (TokenRead (Fulfilled (Some token))) s0 = Some s1
    /\ settle n (Ack (Fulfilled tt)) s1 = Some s2
    /\ myRegistrations (app s0) = myRegistrations (app s)
    /\ myRegistrations (app s1) = myRegistrations (app s)
    /\ myRegistrations (app s2) = myRegistrations (app s)
    /\ effects (app s2) =
         (effects (app s) ++
          [Network (RegisterForEvent (event_id (route_event (details (app s)))) token);
           Alert "Success" "Registration successful!";
           GoBack])%list
    /\ inflight s2 = inflight s.
Proof.
  intros H n s0. subst n s0. destruct s as [a l].
  unfold start. cbn [handleRegister app inflight issue awaitedCall].
  resume_last. rewrite (falsy_token _ H).
  eexists; eexists. split; [reflexivity|].
  resume_last. split; [reflexivity|].
  cbn. rewrite <- !app_assoc. now cbn.
Qed.

(** C2, as the code has it. A successful cancel leaves the local ledger as
    it is, shows the success alert and starts [fetchRegistrations]; the
    ledger becomes what that refresh returns once it succeeds.  A failed
    cancel leaves the ledger untouched and shows the error alert. *)
Theorem cancel_success_refetches_ledger (s : Sys)
    (registrationId token : string) (data : list Registration) :
  token <> EmptyString ->
  let n := length (inflight s) in
  exists s1,
    settle n (TokenRead (Fulfilled (Some token)))
           (start (confirmCancel registrationId) s) = Some s1
    /\ apiCalls s1 = (apiCalls s ++ [CancelRegistration registrationId token])%list
    /\ (exists s2 s3 s4,
          settle n (Ack (Fulfilled tt)) s1 = Some s2
          /\ ledger s2 = ledger s
          /\ regs_loading (myRegistrations (app s2)) = true
          /\ effects (app s2) =
               (effects (app s1) ++
                [Alert "Success" "Registration cancelled successfully!"])%list
          /\ settle n (TokenRead (Fulfilled (Some token))) s2 = Some s3
          /\ ledger s3 = ledger s
          /\ apiCalls s3 = (apiCalls s2 ++ [GetRegistrations token])%list
          /\ settle n (RegistrationsResponse (Fulfilled data)) s3 = Some s4
          /\ ledger s4 = data
          /\ inflight s4 = inflight s)
    /\ (exists s2,
          settle n (Ack Rejected) s1 = Some s2
          /\ myRegistrations (app s2) = myRegistrations (app s)
          /\ effects (app s2) =
               (effects (app s1) ++
                [Alert "Error" "Failed to cancel registration. Please try again.";
                 ConsoleError "Cancel registration error:"])%list
          /\ inflight s2 = inflight s).
Proof.
  intros H n. subst n. destruct s as [a l].
  unfold start. cbn [confirmCancel app inflight issue awaitedCall].
  resume_last. rewrite (falsy_token _ H).
  eexists. split; [reflexivity|]. split; [|split].
  - unfold apiCalls. cbn. now rewrite flat_map_app.
  - resume_last. cbn [fetchRegistrations].
    do 3 eexists. split; [reflexivity|].
    split; [reflexivity|]. split; [reflexivity|]. split; [reflexivity|].
    resume_last. rewrite (falsy_token _ H).
    split; [reflexivity|]. split; [reflexivity|].
    split; [unfold apiCalls; cbn; now rewrite flat_map_app|].
    resume_last. split; [reflexivity|]. split; reflexivity.
  - resume_last. eexists. split; [reflexivity|].
    split; [reflexivity|]. split; [|reflexivity].
    cbn. now rewrite <- app_assoc.
Qed.

(** C4, as the code has it. A failed catalog fetch leaves the catalog and
    the visible list in state as they were, but the screen then renders the
    error view alone, whether or not data had been loaded before. *)
Theorem failed_fetch_keeps_data_shows_error_only (s : Sys) :
  exists s',
    run toLocaleDateString
        [FocusHome; Settle (length (inflight s)) (EventsResponse Rejected)] s
      = Some s'
    /\ catalog s' = catalog s
    /\ visibleEvents s' = visibleEvents s
    /\ renderHome (home (app s'))
         = HomeErrorView "Failed to fetch events. Please try again later.".
Proof.
  destruct s as [a l]. cbn [run step inflight].
  unfold start. cbn [fetchEvents app inflight issue awaitedCall].
  resume_last. eexists. split; [reflexivity|]. now cbn.
Qed.

(** C5. A registration whose event is gone is rendered as the
    "Event Not Found" card, the list keeps one card per ledger entry, and its
    Cancel button opens the dialog whose "Yes" sends the cancel request for
    that registration. *)
Theorem orphaned_registration_rendered (s : Sys) (item : Registration)
    (token : string) :
  regs_loading (myRegistrations (app s)) = false ->
  regs_error (myRegistrations (app s)) = None ->
  In item (ledger s) ->
  eventId item = None ->
  token <> EmptyString ->
  renderRegistration toLocaleDateString item
    = EventNotFoundCard (registration_id item)
  /\ (exists cards,
        renderMyRegistrations toLocaleDateString (myRegistrations (app s))
          = RegsListView cards
        /\ length cards = length (ledger s)
        /\ In (EventNotFoundCard (registration_id item)) cards)
  /\ (exists s',
        run toLocaleDateString
            [PressCancel (registration_id item); PressYes;
             Settle (length (inflight s)) (TokenRead (Fulfilled (Some token)))] s
          = Some s'
        /\ apiCalls s' =
             (apiCalls s ++ [CancelRegistration (registration_id item) token])%list).
Proof.
  intros Hl He Hin Ho Ht.
  assert (Hr : renderRegistration toLocaleDateString item
               = EventNotFoundCard (registration_id item))
    by (unfold renderRegistration; now rewrite Ho).
  assert (Hc : In (EventNotFoundCard (registration_id item))
                  (map (renderRegistration toLocaleDateString) (ledger s)))
    by (rewrite <- Hr; now apply in_map).
  split; [exact Hr|]. split.
  - unfold renderMyRegistrations. rewrite Hl, He.
    eexists. split; [reflexivity|]. split; [apply length_map | exact Hc].
  - assert (Hshown : cancelButtonShown toLocaleDateString
                       (registration_id item) (app s) = true).
    { unfold cancelButtonShown, renderMyRegistrations. rewrite Hl, He.
      apply existsb_exists. eexists. split; [exact Hc|].
      apply String.eqb_refl. }
    destruct s as [a l]. cbn [run step app inflight] in *.
    rewrite Hshown.
    unfold start. cbn [confirmCancel app inflight issue awaitedCall].
    change (dialog (handleCancelRegistration (registration_id item) a))
      with (Some (registration_id item)).
    cbn iota beta.
    resume_last. rewrite (falsy_token _ Ht).
    eexists. split; [reflexivity|].
    unfold apiCalls. cbn. rewrite !flat_map_app. cbn. now rewrite app_nil_r.
Qed.

Ltac resume_at :=
  match goal with
  | |- context [settle ?n ?r (mkSys ?a (?l ++ ?t :: ?rest))] =>
      erewrite (settle_at n a l rest t r);
        [ | first [reflexivity | rewrite length_app; cbn [length]; lia]
          | reflexivity ]
  end;
  cbn [app inflight issue awaitedCall].

(** C8, as the code has it. When refresh A is started before refresh B and
    B's response arrives first, A's response, arriving last, overwrites it:
    the state ends with A's data, for the catalog as for the ledger. *)
Theorem last_response_wins (s : Sys) (dataA dataB : list Event)
    (regsA regsB : list Registration) (token : string) :
  token <> EmptyString ->
  let n := length (inflight s) in
  let read := TokenRead (Fulfilled (Some token)) in
  (exists s',
      run toLocaleDateString
          [FocusHome; FocusHome;
           Settle (S n) (EventsResponse (Fulfilled dataB));
           Settle n (EventsResponse (Fulfilled dataA))] s = Some s'
      /\ catalog s' = dataA /\ visibleEvents s' = dataA
      /\ inflight s' = inflight s)
  /\ (exists s',
        run toLocaleDateString
            [FocusMyRegistrations; FocusMyRegistrations;
             Settle n read; Settle (S n) read;
             Settle (S n) (RegistrationsResponse (Fulfilled regsB));
             Settle n (RegistrationsResponse (Fulfilled regsA))] s = Some s'
        /\ ledger s' = regsA
        /\ inflight s' = inflight s).
Proof.
  intros H n read. subst n read. destruct s as [a l]. split.
  - cbn [run step inflight].
    unfold start. cbn [fetchEvents app inflight issue awaitedCall].
    resume_at. rewrite app_nil_r. resume_last.
    eexists. split; [reflexivity|]. now cbn.
  - cbn [run step inflight].
    unfold start. cbn [fetchRegistrations app inflight issue awaitedCall].
    rewrite <- app_assoc. cbn [Datatypes.app].
    resume_at. rewrite (falsy_token _ H). cbn [app inflight issue awaitedCall].
    change (l ++ ?x :: ?y)%list with (l ++ [x] ++ y)%list.
    rewrite app_assoc.
    resume_at. rewrite (falsy_token _ H). cbn [app inflight issue awaitedCall].
    resume_at. rewrite app_nil_r. resume_last.
    eexists. split; [reflexivity|]. now cbn.
Qed.

Lemma focusHome_fires (s : Sys) :
  exists s',
    step toLocaleDateString FocusHome s = Some s'
    /\ pendingCalls s' = (pendingCalls s ++ [GetEvents])%list
    /\ apiCalls s' = (apiCalls s ++ [GetEvents])%list.
Proof.
  destruct s as [a l]. eexists. split; [reflexivity|].
  unfold pendingCalls, apiCalls, start.
  cbn [fetchEvents app inflight issue awaitedCall emit effects].
  rewrite !flat_map_app. now cbn.
Qed.

Lemma focusMyRegistrations_starts (s : Sys) :
  exists s',
    step toLocaleDateString FocusMyRegistrations s = Some s'
    /\ length (inflight s') = S (length (inflight s)).
Proof.
  destruct s as [a l]. eexists. split; [reflexivity|].
  unfold start. cbn [fetchRegistrations app inflight].
  rewrite length_app. cbn [length]. lia.
Qed.

(** C9, as the code has it. Every focus event starts its own refresh at
    once: [k] focus events on the home screen while nothing completes send
    [k] more [getEvents] requests, all in flight together; on the
    registrations screen each focus event starts one more
    [fetchRegistrations]. *)
Theorem every_focus_fires_a_request (k : nat) (s : Sys) :
  (exists s',
      run toLocaleDateString (repeat FocusHome k) s = Some s'
      /\ pendingCalls s' = (pendingCalls s ++ repeat GetEvents k)%list
      /\ apiCalls s' = (apiCalls s ++ repeat GetEvents k)%list)
  /\ (exists s',
        run toLocaleDateString (repeat FocusMyRegistrations k) s = Some s'
        /\ length (inflight s') = length (inflight s) + k).
Proof.
  revert s. induction k as [|k IH]; intros s.
  - split; exists s; cbn [repeat run]; rewrite ?app_nil_r;
      repeat split; auto.
  - split.
    + destruct (focusHome_fires s) as [s1 [Hs [Hp Ha]]].
      destruct (proj1 (IH s1)) as [s' [Hr [Hp' Ha']]].
      exists s'. cbn [repeat run]. rewrite Hs, Hr, Hp', Ha', Hp, Ha.
      rewrite <- !app_assoc. now cbn.
    + destruct (focusMyRegistrations_starts s) as [s1 [Hs Hn]].
      destruct (proj2 (IH s1)) as [s' [Hr Hn']].
      exists s'. cbn [repeat run]. rewrite Hs, Hr, Hn', Hn.
      split; [reflexivity | lia].
Qed.

End Sync.

(** ** Runs on the sample device *)

(** The ledger screen after a refresh that returned [r1] and [r2]. *)
Lemma ledger_loaded :
  run enUS
      [FocusMyRegistrations;
       Settle 0 (TokenRead (Fulfilled (Some "tok")));
       Settle 0 (RegistrationsResponse (Fulfilled [r1; r2]))]
      (initial hackDay)
  = Some (mkSys (mkApp (mkHome [] [] true None EmptyString)
                       (mkDetails hackDay false None)
                       (mkRegs [r1; r2] false None)
                       None
                       [Network (GetRegistrations "tok")])
                []).
Proof. reflexivity. Qed.

Lemma absent_token_no_network_call_witness :
  falsy None = true
  /\ exists s',
       settle 0 (TokenRead (Fulfilled None))
              (start fetchRegistrations (initial hackDay)) = Some s'
       /\ apiCalls s' = [] /\ inflight s' = [].
Proof.
  split; [reflexivity|].
  destruct (absent_token_no_network_call (initial hackDay) None "r1" eq_refl)
    as [[s' [Hs [_ [Ha Hi]]]] _].
  exists s'. auto.
Defined.

Lemma register_success_leaves_ledger_witness :
  "tok" <> EmptyString
  /\ exists s1 s2,
       settle 0 (TokenRead (Fulfilled (Some "tok")))
              (start handleRegister (initial hackDay)) = Some s1
       /\ settle 0 (Ack (Fulfilled tt)) s1 = Some s2
       /\ ledger s2 = [].
Proof.
  split; [discriminate|].
  destruct (register_success_leaves_ledger (initial hackDay) "tok")
    as [s1 [s2 [H1 [H2 [_ [_ [H5 _]]]]]]]; [discriminate|].
  exists s1, s2. split; [exact H1|]. split; [exact H2|].
  unfold ledger. now rewrite H5.
Defined.

Lemma cancel_success_refetches_ledger_witness :
  "tok" <> EmptyString
  /\ exists s1,
       settle 0 (TokenRead (Fulfilled (Some "tok")))
              (start (confirmCancel "r1") (initial hackDay)) = Some s1
       /\ apiCalls s1 = [CancelRegistration "r1" "tok"].
Proof.
  split; [discriminate|].
  destruct (cancel_success_refetches_ledger (initial hackDay) "r1" "tok" [r2])
    as [s1 [H1 [H2 _]]]; [discriminate|].
  exists s1. split; [exact H1 | exact H2].
Defined.

Lemma orphaned_registration_rendered_witness :
  eventId r2 = None
  /\ renderRegistration enUS r2 = EventNotFoundCard "r2"
  /\ exists s',
       run enUS
           [PressCancel "r2"; PressYes;
            Settle 0 (TokenRead (Fulfilled (Some "tok")))]
           (mkSys (mkApp (mkHome [] [] true None EmptyString)
                         (mkDetails hackDay false None)
                         (mkRegs [r1; r2] false None)
                         None
                         [Network (GetRegistrations "tok")])
                  [])
         = Some s'
       /\ apiCalls s' = [GetRegistrations "tok"; CancelRegistration "r2" "tok"].
Proof.
  split; [reflexivity|].
  destruct (orphaned_registration_rendered enUS
              (mkSys (mkApp (mkHome [] [] true None EmptyString)
                            (mkDetails hackDay false None)
                            (mkRegs [r1; r2] false None)
                            None
                            [Network (GetRegistrations "tok")])
                     [])
              r2 "tok")
    as [Hr [_ Hc]];
    [reflexivity | reflexivity | right; left; reflexivity | reflexivity
    | discriminate | ].
  split; [exact Hr | exact Hc].
Defined.

Lemma last_response_wins_witness :
  "tok" <> EmptyString
  /\ exists s',
       run enUS
           [FocusHome; FocusHome;
            Settle 1 (EventsResponse (Fulfilled [springFest]));
            Settle 0 (EventsResponse (Fulfilled [hackDay]))]
           (initial hackDay) = Some s'
       /\ catalog s' = [hackDay].
Proof.
  split; [discriminate|].
  destruct (last_response_wins enUS (initial hackDay)
              [hackDay] [springFest] [r1] [r2] "tok")
    as [[s' [H1 [H2 _]]] _]; [discriminate|].
  exists s'. split; [exact H1 | exact H2].
Defined.

(** C2 fails as stated: after the cancel of [r1] has succeeded the ledger
    still holds [r1], and it keeps it when the refresh that follows fails. *)
Lemma cancel_success_keeps_entry :
  option_map ledger
    (run enUS
       [FocusMyRegistrations;
        Settle 0 (TokenRead (Fulfilled (Some "tok")));
        Settle 0 (RegistrationsResponse (Fulfilled [r1; r2]));
        PressCancel "r1"; PressYes;
        Settle 0 (TokenRead (Fulfilled (Some "tok")));
        Settle 0 (Ack (Fulfilled tt))]
       (initial hackDay)) = Some [r1; r2]
  /\ option_map ledger
       (run enUS
          [FocusMyRegistrations;
           Settle 0 (TokenRead (Fulfilled (Some "tok")));
           Settle 0 (RegistrationsResponse (Fulfilled [r1; r2]));
           PressCancel "r1"; PressYes;
           Settle 0 (TokenRead (Fulfilled (Some "tok")));
           Settle 0 (Ack (Fulfilled tt));
           Settle 0 (TokenRead (Fulfilled (Some "tok")));
           Settle 0 (RegistrationsResponse Rejected)]
          (initial hackDay)) = Some [r1; r2]
  /\ [r1; r2] <> [r2].
Proof. split; [reflexivity|]. split; [reflexivity | discriminate]. Qed.

(** C4 fails as stated: with the catalog loaded, a failed refresh makes the
    screen render the error view alone, and it stays so after a later
    refresh succeeds. *)
Lemma failed_refresh_hides_loaded_catalog :
  option_map (fun s => (catalog s, renderHome (home (app s))))
    (run enUS
       [FocusHome; Settle 0 (EventsResponse (Fulfilled [hackDay]));
        FocusHome; Settle 0 (EventsResponse Rejected)]
       (initial hackDay))
  = Some ([hackDay],
          HomeErrorView "Failed to fetch events. Please try again later.")
  /\ option_map (fun s => (catalog s, renderHome (home (app s))))
       (run enUS
          [FocusHome; Settle 0 (EventsResponse (Fulfilled [hackDay]));
           FocusHome; Settle 0 (EventsResponse Rejected);
           FocusHome; Settle 0 (EventsResponse (Fulfilled [hackDay; springFest]))]
          (initial hackDay))
     = Some ([hackDay; springFest],
             HomeErrorView "Failed to fetch events. Please try again later.").
Proof. split; reflexivity. Qed.

(** C8 fails as stated: refresh A is started first and answered last, and
    the catalog ends with A's list, not B's. *)
Lemma stale_response_overwrites :
  option_map catalog
    (run enUS
       [FocusHome; FocusHome;
        Settle 1 (EventsResponse (Fulfilled [springFest]));
        Settle 0 (EventsResponse (Fulfilled [hackDay]))]
       (initial hackDay)) = Some [hackDay]
  /\ [hackDay] <> [springFest].
Proof. split; [reflexivity | discriminate]. Qed.

(** C9 fails as stated: two focus events in a row leave two requests of the
    same kind in flight, on either screen. *)
Lemma two_refreshes_in_flight :
  option_map pendingCalls
    (run enUS [FocusHome; FocusHome] (initial hackDay))
  = Some [GetEvents; GetEvents]
  /\ option_map pendingCalls
       (run enUS
          [FocusMyRegistrations; FocusMyRegistrations;
           Settle 0 (TokenRead (Fulfilled (Some "tok")));
           Settle 1 (TokenRead (Fulfilled (Some "tok")))]
          (initial hackDay))
     = Some [GetRegistrations "tok"; GetRegistrations "tok"].
Proof. split; reflexivity. Qed.

(** ** Invariants of the three screens *)

Lemma Preserves_refl (a : App) : Preserves a a.
Proof. unfold Preserves. tauto. Qed.

Lemma Preserves_trans (a b c : App) :
  Preserves a b -> Preserves b c -> Preserves a c.
Proof.
  unfold Preserves.
  intros (H1 & H0 & H2 & H3 & H4 & H5) (K1 & K0 & K2 & K3 & K4 & K5).
  repeat split; auto. congruence.
Qed.

(** A change that touches neither the catalog, the visible list, the two
    sticky errors nor the event shown in the details screen, and that adds
    only effects that are no network calls. *)
Lemma Preserves_frame (a a' : App) (added : list Effect) :
  events (home a') = events (home a) ->
  filteredEvents (home a') = filteredEvents (home a) ->
  searchQuery (home a') = searchQuery (home a) ->
  (home_error (home a) <> None -> home_error (home a') <> None) ->
  (regs_error (myRegistrations a) <> None ->
   regs_error (myRegistrations a') <> None) ->
  route_event (details a') = route_event (details a) ->
  effects a' = (effects a ++ added)%list ->
  (forall c, In (Network c) added -> Authenticated c) ->
  Preserves a a'.
Proof.
  intros He Hf Hq Hh Hr Hd Hx Hn.
  unfold Preserves, Sublisted, BlankShowsAll, CallsAuthenticated.
  rewrite He, Hf, Hq, Hx. repeat split; auto.
  intros Hc c Hin. apply in_app_or in Hin. destruct Hin; auto.
Qed.

Lemma Preserves_whole (a a' : App) (added : list Effect) :
  filteredEvents (home a') = events (home a') ->
  (home_error (home a) <> None -> home_error (home a') <> None) ->
  (regs_error (myRegistrations a) <> None ->
   regs_error (myRegistrations a') <> None) ->
  route_event (details a') = route_event (details a) ->
  effects a' = (effects a ++ added)%list ->
  (forall c, In (Network c) added -> Authenticated c) ->
  Preserves a a'.
Proof.
  intros Hf Hh Hr Hd Hx Hn.
  unfold Preserves, Sublisted, BlankShowsAll, CallsAuthenticated.
  rewrite Hf, Hx. repeat split; auto.
  - intros _. exists (fun _ => true). now rewrite filter_true.
  - intros Hc c Hin. apply in_app_or in Hin. destruct Hin; auto.
Qed.

Ltac no_call :=
  let c := fresh in let H := fresh in
  intros c H; cbn in H;
  repeat (destruct H as [H | H]; [discriminate H|]); contradiction.

Ltac one_call :=
  let c := fresh in let H := fresh in
  intros c H; cbn in H;
  repeat (destruct H as [H | H];
          [first [discriminate H | injection H as <-; assumption]|]);
  contradiction.

Ltac frame added :=
  apply (Preserves_frame _ _ added);
  [reflexivity | reflexivity | reflexivity | cbn; first [tauto | discriminate]
  | cbn; first [tauto | discriminate] | reflexivity
  | cbn; rewrite <- ?app_assoc, ?app_nil_r; reflexivity | ].

Lemma Authenticated_token (call : string -> ApiCall) (token : option string) :
  (forall t, tokenOfCall (call t) = Some t) ->
  falsy token = false ->
  Authenticated (call match token with Some t => t | None => EmptyString end).
Proof.
  intros Hc Hf. unfold Authenticated. rewrite Hc.
  destruct token as [t|]; [|discriminate]. cbn in Hf.
  apply String.eqb_neq in Hf. congruence.
Qed.

Lemma Good_fetchEvents (a : App) :
  Preserves a (fst (fetchEvents a))
  /\ Good Preserves Authenticated (snd (fetchEvents a)).
Proof.
  split; [apply Preserves_refl|]. cbn.
  constructor; [discriminate|]. intros [data|] a0; cbn.
  - split; [|constructor].
    apply (Preserves_whole _ _ []); cbn; rewrite ?app_nil_r; auto. no_call.
  - split; [|constructor]. frame [ConsoleError EmptyString]. no_call.
Qed.

Lemma Good_fetchRegistrations (a : App) :
  Preserves a (fst (fetchRegistrations a))
  /\ Good Preserves Authenticated (snd (fetchRegistrations a)).
Proof.
  split; [cbn; frame (@nil Effect); no_call|]. cbn.
  constructor. intros [token|] a0; cbn.
  - destruct (falsy token) eqn:F; cbn.
    + split; [|constructor]. frame (@nil Effect). no_call.
    + split; [apply Preserves_refl|].
      constructor; [now apply (Authenticated_token GetRegistrations)|].
      intros [data|] a1; cbn; (split; [|constructor]).
      * frame (@nil Effect). no_call.
      * frame [ConsoleError "Fetch registrations error:"]. no_call.
  - split; [|constructor].
    frame [ConsoleError "Fetch registrations error:"]. no_call.
Qed.

Lemma Good_handleRegister (a : App) :
  Preserves a (fst (handleRegister a))
  /\ Good Preserves Authenticated (snd (handleRegister a)).
Proof.
  split; [cbn; frame (@nil Effect); no_call|]. cbn.
  constructor. intros [token|] a0; cbn.
  - destruct (falsy token) eqn:F; cbn.
    + split; [|constructor]. frame (@nil Effect). no_call.
    + split; [apply Preserves_refl|].
      constructor;
        [now apply (Authenticated_token
                      (RegisterForEvent (event_id (route_event (details a0)))))|].
      intros [u|] a1; cbn; (split; [|constructor]).
      * frame [Alert "Success" "Registration successful!"; GoBack]. no_call.
      * frame [ConsoleError "Registration error:"]. no_call.
  - split; [|constructor]. frame [ConsoleError "Registration error:"]. no_call.
Qed.

Lemma Good_confirmCancel (registrationId : string) (a : App) :
  Preserves a (fst (confirmCancel registrationId a))
  /\ Good Preserves Authenticated (snd (confirmCancel registrationId a)).
Proof.
  split; [apply Preserves_refl|]. cbn.
  constructor. intros [token|] a0; cbn.
  - destruct (falsy token) eqn:F; cbn.
    + split; [|constructor]. frame (@nil Effect). no_call.
    + split; [apply Preserves_refl|].
      constructor;
        [now apply (Authenticated_token (CancelRegistration registrationId))|].
      intros [u|] a1.
      * destruct (Good_fetchRegistrations
                    (emit (Alert "Success" "Registration cancelled successfully!") a1))
          as [K G].
        split; [|exact G].
        eapply Preserves_trans; [|exact K].
        frame [Alert "Success" "Registration cancelled successfully!"]. no_call.
      * cbn. split; [|constructor].
        frame [Alert "Error" "Failed to cancel registration. Please try again.";
               ConsoleError "Cancel registration error:"]. no_call.
  - split; [|constructor].
    frame [Alert "Error" "Failed to cancel registration. Please try again.";
           ConsoleError "Cancel registration error:"]. no_call.
Qed.

Lemma Preserves_issue (t : Task) (a : App) :
  Good Preserves Authenticated t -> Preserves a (issue t a).
Proof.
  intros G. unfold issue.
  destruct G; cbn [awaitedCall]; try apply Preserves_refl;
    match goal with
    | |- Preserves _ (emit (Network ?c) _) =>
        apply (Preserves_frame _ _ [Network c]); auto; one_call
    end.
Qed.

Lemma Good_resume (t : Task) (r : Response) (k : App -> App * Task) (a : App) :
  Good Preserves Authenticated t ->
  resume t r = Some k ->
  Preserves a (fst (k a)) /\ Good Preserves Authenticated (snd (k a)).
Proof.
  intros G H. destruct G; destruct r; cbn in H; try discriminate;
    injection H as <-; auto.
Qed.

Lemma Forall_firstn_skipn {A : Type} (P : A -> Prop) (n m : nat) (l mid : list A) :
  Forall P l -> Forall P mid -> Forall P (firstn n l ++ mid ++ skipn m l).
Proof.
  intros Hl Hm. rewrite Forall_forall in *. intros x Hx.
  apply in_app_or in Hx. destruct Hx as [Hx | Hx].
  - apply Hl. revert Hx. rewrite <- (firstn_skipn n l) at 2.
    intros Hx. apply in_or_app. now left.
  - apply in_app_or in Hx. destruct Hx as [Hx | Hx]; [now apply Hm|].
    apply Hl. rewrite <- (firstn_skipn m l). apply in_or_app. now right.
Qed.

Lemma start_Good (f : App -> App * Task) (s : Sys) :
  (forall a, Preserves a (fst (f a)) /\ Good Preserves Authenticated (snd (f a))) ->
  Forall (Good Preserves Authenticated) (inflight s) ->
  Preserves (app s) (app (start f s))
  /\ Forall (Good Preserves Authenticated) (inflight (start f s)).
Proof.
  intros Hf Hl. unfold start. destruct (Hf (app s)) as [K G].
  destruct (f (app s)) as [a t]. cbn [fst snd] in *.
  assert (Hi : Preserves (app s) (issue t a))
    by (eapply Preserves_trans; [exact K | now apply Preserves_issue]).
  assert (Ht : Forall (Good Preserves Authenticated) (inflight s ++ [t]))
    by (apply Forall_app; split; [exact Hl | now constructor]).
  destruct t; cbn [app inflight]; auto.
Qed.

Lemma settle_Good (n : nat) (r : Response) (s s' : Sys) :
  Forall (Good Preserves Authenticated) (inflight s) ->
  settle n r s = Some s' ->
  Preserves (app s) (app s')
  /\ Forall (Good Preserves Authenticated) (inflight s').
Proof.
  intros Hl H. unfold settle in H.
  destruct (nth_error (inflight s) n) as [t|] eqn:Hn; [|discriminate].
  assert (G : Good Preserves Authenticated t).
  { rewrite Forall_forall in Hl. eapply Hl, nth_error_In, Hn. }
  destruct (resume t r) as [k|] eqn:Hr; [|discriminate].
  destruct (Good_resume t r k (app s) G Hr) as [K G'].
  destruct (k (app s)) as [a t']. cbn [fst snd] in *.
  assert (Hi : Preserves (app s) (issue t' a))
    by (eapply Preserves_trans; [exact K | now apply Preserves_issue]).
  assert (H1 : Forall (Good Preserves Authenticated)
                 (firstn n (inflight s) ++ [] ++ skipn (S n) (inflight s)))
    by (apply Forall_firstn_skipn; auto).
  assert (H2 : Forall (Good Preserves Authenticated)
                 (firstn n (inflight s) ++ [t'] ++ skipn (S n) (inflight s)))
    by (apply Forall_firstn_skipn; auto).
  destruct t'; injection H as <-; cbn [app inflight]; auto.
Qed.

Section Invariants.

Variable toLocaleDateString : string -> string.

Lemma Preserves_handleSearch (query : string) (a : App) :
  Preserves a (handleSearch toLocaleDateString query a).
Proof.
  unfold Preserves, Sublisted, BlankShowsAll, CallsAuthenticated. cbn.
  rewrite filterEvents_unfold. repeat split; auto.
  - intros _. destruct (allWhiteSpace query).
    + exists (fun _ => true). now rewrite filter_true.
    + now eexists.
  - intros _ Hb. now rewrite Hb.
Qed.

Lemma step_Good (act : Action) (s s' : Sys) :
  Forall (Good Preserves Authenticated) (inflight s) ->
  step toLocaleDateString act s = Some s' ->
  Preserves (app s) (app s')
  /\ Forall (Good Preserves Authenticated) (inflight s').
Proof.
  intros Hl H. destruct act; cbn [step] in H.
  - injection H as <-. apply start_Good; auto using Good_fetchEvents.
  - injection H as <-. apply start_Good; auto using Good_fetchRegistrations.
  - destruct (searchBoxShown (app s)); [|discriminate]. injection H as <-.
    split; [apply Preserves_handleSearch | exact Hl].
  - destruct (searchBoxShown (app s) && _); [|discriminate]. injection H as <-.
    split; [|exact Hl]. cbn [app].
    apply (Preserves_whole _ _ []); cbn; rewrite ?app_nil_r; auto. no_call.
  - destruct (details_loading (details (app s))); [discriminate|].
    injection H as <-. apply start_Good; auto using Good_handleRegister.
  - destruct (cancelButtonShown _ _ _); [|discriminate]. injection H as <-.
    split; [|exact Hl]. cbn [app].
    frame [Alert "Cancel Registration"
                 "Are you sure you want to cancel this registration?"]. no_call.
  - destruct (dialog (app s)) as [i|]; [|discriminate]. injection H as <-.
    destruct (start_Good (confirmCancel i)
                (mkSys (setDialog None (app s)) (inflight s))
                (Good_confirmCancel i) Hl) as [K G].
    split; [|exact G]. eapply Preserves_trans; [|exact K].
    cbn [app]. frame (@nil Effect). no_call.
  - destruct (dialog (app s)) as [i|]; [|discriminate]. injection H as <-.
    split; [|exact Hl]. cbn [app]. frame (@nil Effect). no_call.
  - eapply settle_Good; eauto.
Qed.

Lemma run_Good (acts : list Action) (s s' : Sys) :
  Forall (Good Preserves Authenticated) (inflight s) ->
  run toLocaleDateString acts s = Some s' ->
  Preserves (app s) (app s')
  /\ Forall (Good Preserves Authenticated) (inflight s').
Proof.
  revert s. induction acts as [|act acts IH]; intros s Hl H; cbn [run] in H.
  - injection H as <-. split; [apply Preserves_refl | exact Hl].
  - destruct (step toLocaleDateString act s) as [s1|] eqn:Hs; [|discriminate].
    destruct (step_Good _ _ _ Hl Hs) as [K G].
    destruct (IH s1 G H) as [K' G'].
    split; [eapply Preserves_trans; eauto | exact G'].
Qed.

Lemma run_app (acts1 acts2 : list Action) (s : Sys) :
  run toLocaleDateString (acts1 ++ acts2) s =
  match run toLocaleDateString acts1 s with
  | Some s1 => run toLocaleDateString acts2 s1
  | None => None
  end.
Proof.
  revert s. induction acts1 as [|act acts1 IH]; intros s; cbn [run List.app];
    [reflexivity|].
  destruct (step toLocaleDateString act s); [apply IH | reflexivity].
Qed.

Lemma reachable_Good (ev : Event) (acts : list Action) (s : Sys) :
  run toLocaleDateString acts (initial ev) = Some s ->
  Preserves (app (initial ev)) (app s)
  /\ Forall (Good Preserves Authenticated) (inflight s).
Proof. apply run_Good. constructor. Qed.

Lemma In_apiCalls (c : ApiCall) (s : Sys) :
  In c (apiCalls s) <-> In (Network c) (effects (app s)).
Proof.
  unfold apiCalls. rewrite in_flat_map. split.
  - intros [e [He Hc]]. destruct e; cbn in Hc; try contradiction.
    destruct Hc as [<-|[]]. exact He.
  - intros H. exists (Network c). split; [exact H | now left].
Qed.

(** X1. Whatever the user and the network do after the screens mount, the
    list on the home screen is the catalog with some events left out: it
    never shows an event that is not in the catalog, and keeps catalog
    order. *)
Theorem visible_events_come_from_catalog (ev : Event) (acts : list Action)
    (s : Sys) :
  run toLocaleDateString acts (initial ev) = Some s ->
  (exists keep, visibleEvents s = filter keep (catalog s))
  /\ incl (visibleEvents s) (catalog s).
Proof.
  intros H. destruct (reachable_Good _ _ _ H) as [(K & _) _].
  assert (Hs : Sublisted (app s)) by (apply K; now exists (fun _ => true)).
  split; [exact Hs|]. destruct Hs as [keep Hk].
  unfold visibleEvents, catalog. rewrite Hk. apply incl_filter.
Qed.

(** X2. Whenever the search box holds a blank query (empty or white space
    only), the visible list is the whole catalog, so the list is then the
    filter of the catalog by the query on screen. *)
Theorem blank_query_shows_whole_catalog (ev : Event) (acts : list Action)
    (s : Sys) :
  run toLocaleDateString acts (initial ev) = Some s ->
  allWhiteSpace (searchQuery (home (app s))) = true ->
  visibleEvents s = catalog s
  /\ visibleEvents s =
       filterEvents toLocaleDateString (catalog s) (searchQuery (home (app s))).
Proof.
  intros H Hb. destruct (reachable_Good _ _ _ H) as [(_ & K & _) _].
  assert (Hw : visibleEvents s = catalog s) by (apply K; [intros _; reflexivity | exact Hb]).
  split; [exact Hw|]. now rewrite filterEvents_unfold, Hb.
Qed.

(** X3. No handler of the home screen clears its error: once a catalog
    fetch has failed, the screen never renders the event list again, whatever
    happens later (later successful fetches included). *)
Theorem home_error_is_never_cleared (ev : Event) (acts1 acts2 : list Action)
    (s s' : Sys) :
  run toLocaleDateString acts1 (initial ev) = Some s ->
  home_error (home (app s)) <> None ->
  run toLocaleDateString acts2 s = Some s' ->
  home_error (home (app s')) <> None
  /\ forall q d, renderHome (home (app s')) <> HomeListView q d.
Proof.
  intros H1 He H2. destruct (reachable_Good _ _ _ H1) as [_ G].
  destruct (run_Good _ _ _ G H2) as [(_ & _ & K & _) _].
  specialize (K He). split; [exact K|].
  intros q d. unfold renderHome.
  destruct (home_loading (home (app s'))); [discriminate|].
  destruct (home_error (home (app s'))); [discriminate | congruence].
Qed.

(** X4. No handler of the registrations screen clears its error either:
    once a refresh has failed or a token was missing, the screen never
    renders the list of registrations again. *)
Theorem registrations_error_is_never_cleared (ev : Event)
    (acts1 acts2 : list Action) (s s' : Sys) :
  run toLocaleDateString acts1 (initial ev) = Some s ->
  regs_error (myRegistrations (app s)) <> None ->
  run toLocaleDateString acts2 s = Some s' ->
  regs_error (myRegistrations (app s')) <> None
  /\ forall cards,
       renderMyRegistrations toLocaleDateString (myRegistrations (app s'))
       <> RegsListView cards.
Proof.
  intros H1 He H2. destruct (reachable_Good _ _ _ H1) as [_ G].
  destruct (run_Good _ _ _ G H2) as [(_ & _ & _ & K & _) _].
  specialize (K He). split; [exact K|].
  intros cards. unfold renderMyRegistrations.
  destruct (regs_loading (myRegistrations (app s'))); [discriminate|].
  destruct (regs_error (myRegistrations (app s'))); [discriminate | congruence].
Qed.

(** X5. No request that carries a bearer token is ever sent with the empty
    token: register, ledger refresh and cancel all stop at [!token]
    first. *)
Theorem no_request_with_empty_token (ev : Event) (acts : list Action)
    (s : Sys) (c : ApiCall) :
  run toLocaleDateString acts (initial ev) = Some s ->
  In c (apiCalls s) ->
  tokenOfCall c <> Some EmptyString.
Proof.
  intros H Hc. destruct (reachable_Good _ _ _ H) as [(_ & _ & _ & _ & K & _) _].
  apply In_apiCalls in Hc. apply K; [|exact Hc].
  intros c' [].
Qed.

End Invariants.

(** ** Laws of the search filter *)

Lemma lowerChar_idem (c : ascii) : lowerChar (lowerChar c) = lowerChar c.
Proof. destruct c as [[] [] [] [] [] [] [] []]; reflexivity. Qed.

Lemma isWhiteSpace_lowerChar (c : ascii) :
  isWhiteSpace (lowerChar c) = isWhiteSpace c.
Proof. destruct c as [[] [] [] [] [] [] [] []]; reflexivity. Qed.

Lemma toLowerCase_idem (s : string) :
  toLowerCase (toLowerCase s) = toLowerCase s.
Proof.
  induction s as [|c s IH]; cbn [toLowerCase]; [reflexivity|].
  now rewrite lowerChar_idem, IH.
Qed.

Lemma allWhiteSpace_toLowerCase (s : string) :
  allWhiteSpace (toLowerCase s) = allWhiteSpace s.
Proof.
  induction s as [|c s IH]; cbn [toLowerCase allWhiteSpace]; [reflexivity|].
  now rewrite isWhiteSpace_lowerChar, IH.
Qed.








Section FilterLaws.

Variable toLocaleDateString : string -> string.


(** X7. The case of the query does not matter: two queries with the same
    lower-case form select the same events. *)
Theorem query_case_is_ignored (C : list Event) (q1 q2 : string) :
  toLowerCase q1 = toLowerCase q2 ->
  filterEvents toLocaleDateString C q1 = filterEvents toLocaleDateString C q2.
Proof.
  intros H. rewrite !filterEvents_unfold.
  rewrite <- (allWhiteSpace_toLowerCase q1), <- (allWhiteSpace_toLowerCase q2).
  now rewrite H.
Qed.

End FilterLaws.

(** ** The registrations list and the details screen *)

Ltac resume_tail :=
  erewrite settle_last by reflexivity; unfold start;
  cbn [app inflight issue awaitedCall].

Section Handlers.

Variable toLocaleDateString : string -> string.

(** X8. The register button is disabled from the press until the operation
    ends: a second press is refused while the token is read and while the
    request is pending, and however the operation ends, the task is gone and
    the button is enabled again. *)
Theorem register_button_guards_double_submit (s : Sys) :
  details_loading (details (app s)) = false ->
  exists s1,
    step toLocaleDateString PressRegister s = Some s1
    /\ step toLocaleDateString PressRegister s1 = None
    /\ forall read, exists s2,
         settle (length (inflight s)) (TokenRead read) s1 = Some s2
         /\ ((inflight s2 = inflight s
              /\ details_loading (details (app s2)) = false)
             \/ (step toLocaleDateString PressRegister s2 = None
                 /\ forall ack, exists s3,
                      settle (length (inflight s)) (Ack ack) s2 = Some s3
                      /\ inflight s3 = inflight s
                      /\ details_loading (details (app s3)) = false)).
Proof.
  destruct s as [a l]. cbn [app inflight step]. intros H. rewrite H.
  eexists. split; [reflexivity|]. split; [reflexivity|].
  intros read. unfold start. cbn [handleRegister app inflight issue awaitedCall].
  resume_tail. destruct read as [token|].
  - destruct (falsy token).
    + eexists. split; [reflexivity|]. left. split; reflexivity.
    + eexists. split; [reflexivity|]. right. split; [reflexivity|].
      intros ack. resume_tail.
      destruct ack; eexists; (split; [reflexivity|]); split; reflexivity.
  - eexists. split; [reflexivity|]. left. split; reflexivity.
Qed.

(** X9. A register that fails, at the token read or at the request, sets
    the screen's error and logs it; it shows no success alert and does not
    navigate back. *)
Theorem register_failure_stays_on_screen (s : Sys) (token : string) :
  token <> EmptyString ->
  let s0 := start handleRegister s in
  let n := length (inflight s) in
  (exists s1,
      settle n (TokenRead Rejected) s0 = Some s1
      /\ details_error (details (app s1))
           = Some "Failed to register for the event. Please try again."
      /\ effects (app s1)
           = (effects (app s) ++ [ConsoleError "Registration error:"])%list)
  /\ (exists s1 s2,
        settle n (TokenRead (Fulfilled (Some token))) s0 = Some s1
        /\ settle n (Ack Rejected) s1 = Some s2
        /\ details_error (details (app s2))
             = Some "Failed to register for the event. Please try again."
        /\ effects (app s2)
             = (effects (app s) ++
                [Network (RegisterForEvent
                           (event_id (route_event (details (app s)))) token);
                 ConsoleError "Registration error:"])%list
        /\ inflight s2 = inflight s).
Proof.
  intros H s0 n. subst s0 n. destruct s as [a l].
  unfold start. cbn [handleRegister app inflight issue awaitedCall]. split.
  - resume_tail. eexists. split; [reflexivity|]. split; reflexivity.
  - resume_tail. rewrite (falsy_token _ H).
    do 2 eexists. split; [reflexivity|]. resume_tail.
    split; [reflexivity|]. split; [reflexivity|]. split; [|reflexivity].
    cbn. now rewrite <- app_assoc.
Qed.

(** X10. Answering "No" in the cancel dialog only closes it: the ledger,
    the requests sent and the tasks in flight are as before the button was
    pressed. *)
Theorem declining_cancel_changes_nothing (s : Sys) (registrationId : string) :
  cancelButtonShown toLocaleDateString registrationId (app s) = true ->
  exists s',
    run toLocaleDateString [PressCancel registrationId; PressNo] s = Some s'
    /\ myRegistrations (app s') = myRegistrations (app s)
    /\ apiCalls s' = apiCalls s
    /\ inflight s' = inflight s
    /\ dialog (app s') = None.
Proof.
  intros H. destruct s as [a l]. cbn [run step app inflight] in *. rewrite H.
  eexists. split; [reflexivity|]. cbn [app inflight].
  split; [reflexivity|]. split; [|split; reflexivity].
  unfold apiCalls. cbn. rewrite flat_map_app. cbn. now rewrite app_nil_r.
Qed.

(** X11. When the list of registrations is on screen it has one card per
    ledger entry, in ledger order, and the Cancel button of each card is
    bound to the id of its own entry; so a Cancel button for an id is on
    screen exactly when that id is in the ledger. *)
Theorem cards_follow_the_ledger (a : App) :
  regs_loading (myRegistrations a) = false ->
  regs_error (myRegistrations a) = None ->
  (exists cards,
      renderMyRegistrations toLocaleDateString (myRegistrations a)
        = RegsListView cards
      /\ map cancelTarget cards
           = map registration_id (registrations (myRegistrations a)))
  /\ forall registrationId,
       cancelButtonShown toLocaleDateString registrationId a = true <->
       In registrationId (map registration_id (registrations (myRegistrations a))).
Proof.
  intros Hl He.
  assert (Hm : forall l,
             map cancelTarget (map (renderRegistration toLocaleDateString) l)
             = map registration_id l).
  { intros l. rewrite map_map. apply map_ext. intros r.
    unfold renderRegistration. now destruct (eventId r). }
  split.
  - unfold renderMyRegistrations. rewrite Hl, He.
    eexists. split; [reflexivity | apply Hm].
  - intros i. unfold cancelButtonShown, renderMyRegistrations. rewrite Hl, He.
    rewrite existsb_exists, <- Hm, in_map_iff. split.
    + intros [c [Hc E]]. apply String.eqb_eq in E. eauto.
    + intros [c [E Hc]]. exists c. split; [exact Hc | now apply String.eqb_eq].
Qed.


(** X13. A ledger refresh that fails, at the token read or at the request,
    leaves the ledger as it was, sets the error and ends the loading state,
    so the screen renders the error view. *)
Theorem failed_refresh_keeps_ledger (s : Sys) (token : string) :
  token <> EmptyString ->
  let n := length (inflight s) in
  (exists s',
      run toLocaleDateString
          [FocusMyRegistrations; Settle n (TokenRead Rejected)] s = Some s'
      /\ ledger s' = ledger s
      /\ renderMyRegistrations toLocaleDateString (myRegistrations (app s'))
           = RegsErrorView "Failed to fetch registrations. Please try again later."
      /\ apiCalls s' = apiCalls s)
  /\ (exists s',
        run toLocaleDateString
            [FocusMyRegistrations;
             Settle n (TokenRead (Fulfilled (Some token)));
             Settle n (RegistrationsResponse Rejected)] s = Some s'
        /\ ledger s' = ledger s
        /\ renderMyRegistrations toLocaleDateString (myRegistrations (app s'))
             = RegsErrorView "Failed to fetch registrations. Please try again later."
        /\ inflight s' = inflight s).
Proof.
  intros H n. subst n. destruct s as [a l]. cbn [run step inflight].
  unfold start. cbn [fetchRegistrations app inflight issue awaitedCall]. split.
  - resume_tail. eexists. split; [reflexivity|].
    split; [reflexivity|]. split; [reflexivity|].
    unfold apiCalls. cbn. rewrite flat_map_app. cbn. now rewrite app_nil_r.
  - resume_tail. rewrite (falsy_token _ H). resume_tail.
    eexists. split; [reflexivity|]. repeat split.
Qed.

End Handlers.

(** ** The other screens *)

Lemma exec_Done {St : Type} (fuel : nat) (w : World) (r : Run St) :
  exec fuel w r Done = (r, Done).
Proof. now destruct fuel. Qed.

Ltac by_cases_of w :=
  repeat match goal with
         | |- context [w ?c] =>
             let E := fresh "E" in
             destruct (w c) as [?|] eqn:E; cbn -[String.eqb append] in *
         | u : unit |- _ => destruct u
         | |- context [falsy ?t] =>
             let F := fresh "F" in
             destruct (falsy t) eqn:F; cbn -[String.eqb append] in *
         end;
  rewrite ?exec_Done; cbn -[String.eqb append] in *.

Ltac settle_cases :=
  repeat split; intros;
  repeat match goal with
         | H : In _ _ |- _ => cbn in H
         | H : _ \/ _ |- _ => destruct H
         | H : False |- _ => destruct H
         | H : exists _, _ |- _ => destruct H
         | H : _ /\ _ |- _ => destruct H
         | H : Fulfilled _ = Fulfilled _ |- _ => injection H as H; subst
         | H : ~ _ |- _ => try (exfalso; apply H; cbn; now auto 6)
         end;
  try discriminate; try congruence; try (cbn; now auto 6); eauto.

(** X14. Logging in leads to the main screen exactly when the login request
    and the write of its token to storage both succeed, and the token written
    is the one the server returned.  Any failure, the storage write included,
    gives the same "Invalid email or password" alert and re-enables the
    button; the screen's inline error is never set. *)
Theorem login_navigates_only_with_stored_token (w : World)
    (st : LoginScreen.State) (n : nat) :
  let e := LoginScreen.email st in
  let p := LoginScreen.password st in
  let res := call (S (S n)) w LoginScreen.handleLogin st in
  let r := fst res in
  snd res = Done
  /\ LoginScreen.error (state r) = None
  /\ (forall v, In (SetItem v) (sent (log r)) -> w (LoginUser e p) = Fulfilled v)
  /\ (In (Replaced "Main") (outward (log r)) <->
      exists token,
        w (LoginUser e p) = Fulfilled token /\ w (SetItem token) = Fulfilled tt)
  /\ (In (Replaced "Main") (outward (log r)) ->
      LoginScreen.loading (state r) = true)
  /\ (~ In (Replaced "Main") (outward (log r)) ->
      LoginScreen.loading (state r) = false
      /\ In (Alerted "Error" "Invalid email or password. Please try again.")
            (outward (log r))).
Proof.
  intros e p res r. subst e p res r. unfold call.
  cbn -[String.eqb append]. by_cases_of w; settle_cases.
Qed.

(** X15. The organizer sign-up always asks for the role "organizer"; it
    goes to the login screen exactly when the request succeeds, shows its
    error exactly when it fails, and re-enables the button either way. *)
Theorem organizer_register_outcome (w : World)
    (st : OrganizerRegisterScreen.State) (n : nat) :
  let req := PostAuthRegister (OrganizerRegisterScreen.name st)
               (OrganizerRegisterScreen.email st)
               (OrganizerRegisterScreen.password st)
               (OrganizerRegisterScreen.college st) "organizer" in
  let res := call (S n) w OrganizerRegisterScreen.handleRegister st in
  let r := fst res in
  snd res = Done
  /\ sent (log r) = [req]
  /\ OrganizerRegisterScreen.loading (state r) = false
  /\ (In (Navigated "Login") (outward (log r)) <-> w req = Fulfilled tt)
  /\ (OrganizerRegisterScreen.error (state r) = None <-> w req = Fulfilled tt).
Proof.
  intros req res r. subst req res r. unfold call.
  cbn -[String.eqb append]. by_cases_of w; settle_cases.
Qed.

Ltac token_cases w :=
  let t := fresh "t" in
  let E := fresh "E" in
  destruct (w GetItem) as [[t|]|] eqn:E;
  [destruct (String.eqb_spec t EmptyString) as [->|?]| | ];
  cbn -[String.eqb append] in *;
  repeat match goal with
         | N : ?t <> EmptyString |- _ =>
             progress (rewrite (proj2 (String.eqb_neq t EmptyString) N))
         end;
  cbn -[String.eqb append] in *.

Ltac create_cases w :=
  token_cases w; rewrite ?exec_Done;
  cbn -[String.eqb append AddEventScreen.formData];
  try match goal with
      | |- context [w (PostEvents ?f ?a ?c)] =>
          let E := fresh "E" in
          destruct (w (PostEvents f a c)) as [[]|] eqn:E;
          cbn -[String.eqb append AddEventScreen.formData]
      end;
  rewrite ?exec_Done; cbn -[String.eqb append AddEventScreen.formData].

(** X16. Creating an event sends at most one request, and only with a token
    in storage: the form is built from the fields as they were when the
    button was pressed, with an image part exactly when an image was picked,
    and the token goes out as a Bearer header.  The screen goes to Home
    exactly when that request succeeds, and the button is re-enabled in
    every case. *)
Theorem create_event_outcome (w : World) (st : AddEventScreen.State) (n : nat) :
  let res := call (S (S n)) w AddEventScreen.handleCreateEvent st in
  let r := fst res in
  snd res = Done
  /\ AddEventScreen.loading (state r) = false
  /\ (forall form auth ct,
        In (PostEvents form auth ct) (sent (log r)) ->
        exists token,
          w GetItem = Fulfilled (Some token) /\ token <> EmptyString
          /\ form = AddEventScreen.formData st
          /\ auth = "Bearer " ++ token /\ ct = "multipart/form-data")
  /\ (In (Navigated "Home") (outward (log r)) <->
      exists token,
        w GetItem = Fulfilled (Some token) /\ token <> EmptyString
        /\ w (PostEvents (AddEventScreen.formData st) ("Bearer " ++ token)
                "multipart/form-data") = Fulfilled tt)
  /\ (forall v,
        In ("image", v) (AddEventScreen.formData st) <->
        exists i, AddEventScreen.image st = Some i
                  /\ v = File (uri i) "image/jpeg" "event-image.jpg").
Proof.
  intros res r. subst res r. unfold call.
  cbn -[String.eqb append AddEventScreen.formData].
  split; [|split; [|split; [|split]]].
  5: { intros v. unfold AddEventScreen.formData.
       destruct (AddEventScreen.image st) as [i|]; cbn; split.
       - intros H. repeat (destruct H as [H|H]; [try discriminate|]);
           [injection H as <-; eauto | contradiction].
       - intros [i' [H ->]]. injection H as <-. auto 10.
       - intros H. repeat (destruct H as [H|H]; [discriminate|]). contradiction.
       - intros [i' [H _]]. discriminate. }
  all: create_cases w; settle_cases.
  all: match goal with
       | H : PostEvents _ _ _ = PostEvents _ _ _ |- _ => injection H as <- <- <-
       end; eauto 10.
Qed.

(** X17. Picking an image opens the library only when permission was
    granted; a refusal shows the "Permission Denied" alert; and the image
    changes only when the library returned without being cancelled, to the
    first asset it returned.  In every other case the form is untouched. *)
Theorem pickImage_outcome (w : World) (st : AddEventScreen.State) (n : nat) :
  let res := call (S (S n)) w AddEventScreen.pickImage st in
  let r := fst res in
  snd res = Done
  /\ (In LaunchImageLibrary (sent (log r)) <->
      w RequestMediaLibraryPermissions = Fulfilled true)
  /\ (w RequestMediaLibraryPermissions = Fulfilled false ->
      outward (log r)
      = [Alerted "Permission Denied"
                 "Permission to access camera roll is required!"])
  /\ (state r = st
      \/ exists assets,
           w RequestMediaLibraryPermissions = Fulfilled true
           /\ w LaunchImageLibrary = Fulfilled (false, assets)
           /\ state r = AddEventScreen.setImage (nth_error assets 0) st).
Proof.
  intros res r. subst res r. unfold call. cbn -[String.eqb append nth_error].
  destruct (w RequestMediaLibraryPermissions) as [[|]|] eqn:E;
    cbn -[String.eqb append nth_error];
    [destruct (w LaunchImageLibrary) as [[[|] assets]|] eqn:E2;
     cbn -[String.eqb append nth_error] | | ];
    rewrite ?exec_Done; cbn -[String.eqb append nth_error];
    settle_cases.
Qed.

(** X18. Mounting the profile screen asks for the profile only with a token
    in storage, and always ends the loading state.  When a profile arrives,
    the edit fields start from it (the roll number as the empty string when
    the profile has none); when none arrives, the error is set. *)
Theorem profile_mount_outcome (w : World) (n : nat) :
  let res := call (S (S n)) w MyProfileScreen.fetchProfile MyProfileScreen.mounted in
  let r := fst res in
  snd res = Done
  /\ MyProfileScreen.loading (state r) = false
  /\ (forall t, In (GetProfile t) (sent (log r)) ->
                w GetItem = Fulfilled (Some t) /\ t <> EmptyString)
  /\ (forall p, MyProfileScreen.profile (state r) = Some p ->
                MyProfileScreen.name (state r) = profile_name p
                /\ MyProfileScreen.rollNo (state r)
                     = MyProfileScreen.orEmpty (profile_rollNo p)
                /\ MyProfileScreen.error (state r) = None)
  /\ (MyProfileScreen.profile (state r) = None ->
      MyProfileScreen.error (state r) <> None).
Proof.
  intros res r. subst res r. unfold call. cbn -[String.eqb append].
  token_cases w; rewrite ?exec_Done; cbn -[String.eqb append];
    try match goal with
        | |- context [w (GetProfile ?t)] =>
            destruct (w (GetProfile t)) as [p0|] eqn:E2; cbn -[String.eqb append]
        end;
    rewrite ?exec_Done; cbn -[String.eqb append];
    settle_cases;
    try match goal with
        | H : GetProfile _ = GetProfile _ |- _ => injection H as <-; auto
        | H : Some _ = Some _ |- _ => injection H as <-; auto
        end.
Qed.

(** X19. Updating the profile sends the name and roll number that were in
    the edit fields when the button was pressed, only with a token in
    storage.  It never changes the edit fields; the shown profile changes
    only to the user the server returned, and stays as it was whenever the
    update error is set.  The button is re-enabled in every case. *)
Theorem update_profile_outcome (w : World) (st : MyProfileScreen.State)
    (n : nat) :
  let res := call (S (S n)) w MyProfileScreen.handleUpdateProfile st in
  let r := fst res in
  snd res = Done
  /\ MyProfileScreen.updateLoading (state r) = false
  /\ MyProfileScreen.name (state r) = MyProfileScreen.name st
  /\ MyProfileScreen.rollNo (state r) = MyProfileScreen.rollNo st
  /\ (forall a b t, In (UpdateProfile a b t) (sent (log r)) ->
        a = MyProfileScreen.name st /\ b = MyProfileScreen.rollNo st
        /\ w GetItem = Fulfilled (Some t) /\ t <> EmptyString)
  /\ (MyProfileScreen.profile (state r) = MyProfileScreen.profile st
      \/ exists t user,
           w (UpdateProfile (MyProfileScreen.name st) (MyProfileScreen.rollNo st) t)
             = Fulfilled user
           /\ MyProfileScreen.profile (state r) = Some user
           /\ MyProfileScreen.updateError (state r) = None)
  /\ (MyProfileScreen.updateError (state r) <> None ->
      MyProfileScreen.profile (state r) = MyProfileScreen.profile st).
Proof.
  intros res r. subst res r. unfold call. cbn -[String.eqb append].
  token_cases w; rewrite ?exec_Done; cbn -[String.eqb append];
    try match goal with
        | |- context [w (UpdateProfile ?a ?b ?t)] =>
            destruct (w (UpdateProfile a b t)) as [p0|] eqn:E2;
            cbn -[String.eqb append]
        end;
    rewrite ?exec_Done; cbn -[String.eqb append];
    settle_cases;
    try match goal with
        | H : UpdateProfile _ _ _ = UpdateProfile _ _ _ |- _ =>
            injection H as <- <- <-; auto
        end.
  right. eauto.
Qed.

(** X20. Logging out removes the token and resets navigation to the login
    screen exactly when the removal succeeds; when it fails the user gets an
    alert and stays.  The profile screen's state is not touched. *)
Theorem logout_outcome (w : World) (st : MyProfileScreen.State) (n : nat) :
  let res := call (S n) w MyProfileScreen.handleLogout st in
  let r := fst res in
  snd res = Done
  /\ state r = st
  /\ sent (log r) = [RemoveItem]
  /\ (In (ResetTo "Login") (outward (log r)) <-> w RemoveItem = Fulfilled tt)
  /\ (w RemoveItem = Rejected ->
      outward (log r)
      = [Alerted "Error" "Failed to log out. Please try again.";
         ConsoleErrored "Logout error:"]).
Proof.
  intros res r. subst res r. unfold call. cbn -[String.eqb append].
  by_cases_of w; settle_cases.
Qed.






Ltac role_cases w :=
  token_cases w; rewrite ?exec_Done; cbn -[String.eqb append];
  try match goal with
      | |- context [w (GetUsersProfile ?a)] =>
          let E := fresh "E" in
          destruct (w (GetUsersProfile a)) as [?|] eqn:E;
          cbn -[String.eqb append]
      end;
  rewrite ?exec_Done; cbn -[String.eqb append];
  try match goal with
      | |- context [String.eqb ?role "organizer"] =>
          destruct (String.eqb_spec role "organizer"); cbn -[String.eqb append]
      end.

(** X22. The Add Event tab is on the tab bar exactly when the stored token
    was sent to the profile endpoint and the answer's role is "organizer";
    with no token nothing is requested; and the other three tabs are always
    there, in the same order. *)
Theorem add_event_tab_only_for_organizers (w : World) (n : nat) :
  let res := call (S (S n)) w MainTabs.fetchUserRole None in
  let r := fst res in
  (In "AddEvent" (MainTabs.tabs (state r)) <->
   exists t,
     w GetItem = Fulfilled (Some t) /\ t <> EmptyString
     /\ w (GetUsersProfile ("Bearer " ++ t)) = Fulfilled "organizer")
  /\ (forall auth, In (GetUsersProfile auth) (sent (log r)) ->
        exists t, w GetItem = Fulfilled (Some t) /\ t <> EmptyString
                  /\ auth = "Bearer " ++ t)
  /\ (forall role,
        filter (fun tab => negb (tab =? "AddEvent")%string) (MainTabs.tabs role)
        = ["Home"; "MyRegistrations"; "MyProfile"]).
Proof.
  intros res r. subst res r. unfold call. cbn -[String.eqb append].
  split; [|split].
  3: { intros [role|]; [|reflexivity]. unfold MainTabs.tabs.
       destruct (role =? "organizer")%string; reflexivity. }
  all: role_cases w; settle_cases;
    try match goal with
        | H : GetUsersProfile _ = GetUsersProfile _ |- _ =>
            injection H as <-; eauto
        end.
  subst. eauto.
Qed.

(** ** Runs of the further properties on the sample device *)

Lemma visible_events_come_from_catalog_witness :
  exists s,
    run enUS
        [FocusHome; Settle 0 (EventsResponse (Fulfilled [hackDay; springFest]));
         Search "mit"]
        (initial hackDay) = Some s
    /\ incl (visibleEvents s) (catalog s).
Proof.
  eexists. split; [reflexivity|].
  apply (proj2 (visible_events_come_from_catalog enUS hackDay
                  [FocusHome;
                   Settle 0 (EventsResponse (Fulfilled [hackDay; springFest]));
                   Search "mit"] _ eq_refl)).
Defined.

Lemma blank_query_shows_whole_catalog_witness :
  exists s,
    run enUS
        [FocusHome; Settle 0 (EventsResponse (Fulfilled [hackDay; springFest]));
         Search "mit"; Search " "]
        (initial hackDay) = Some s
    /\ allWhiteSpace (searchQuery (home (app s))) = true
    /\ visibleEvents s = catalog s.
Proof.
  eexists. split; [reflexivity|]. split; [reflexivity|].
  apply (proj1 (blank_query_shows_whole_catalog enUS hackDay
                  [FocusHome;
                   Settle 0 (EventsResponse (Fulfilled [hackDay; springFest]));
                   Search "mit"; Search " "] _ eq_refl eq_refl)).
Defined.

Lemma home_error_is_never_cleared_witness :
  exists s s',
    run enUS [FocusHome; Settle 0 (EventsResponse Rejected)] (initial hackDay)
      = Some s
    /\ run enUS [FocusHome; Settle 0 (EventsResponse (Fulfilled [hackDay]))] s
       = Some s'
    /\ home_error (home (app s')) <> None.
Proof.
  do 2 eexists. split; [reflexivity|]. split; [reflexivity|].
  apply (proj1 (home_error_is_never_cleared enUS hackDay
                  [FocusHome; Settle 0 (EventsResponse Rejected)]
                  [FocusHome; Settle 0 (EventsResponse (Fulfilled [hackDay]))]
                  _ _ eq_refl ltac:(discriminate) eq_refl)).
Defined.

Lemma registrations_error_is_never_cleared_witness :
  exists s s',
    run enUS [FocusMyRegistrations; Settle 0 (TokenRead (Fulfilled None))]
        (initial hackDay) = Some s
    /\ run enUS
           [FocusMyRegistrations;
            Settle 0 (TokenRead (Fulfilled (Some "tok")));
            Settle 0 (RegistrationsResponse (Fulfilled [r1]))] s
       = Some s'
    /\ regs_error (myRegistrations (app s')) <> None.
Proof.
  do 2 eexists. split; [reflexivity|]. split; [reflexivity|].
  apply (proj1 (registrations_error_is_never_cleared enUS hackDay
                  [FocusMyRegistrations; Settle 0 (TokenRead (Fulfilled None))]
                  [FocusMyRegistrations;
                   Settle 0 (TokenRead (Fulfilled (Some "tok")));
                   Settle 0 (RegistrationsResponse (Fulfilled [r1]))]
                  _ _ eq_refl ltac:(discriminate) eq_refl)).
Defined.

Lemma no_request_with_empty_token_witness :
  exists s,
    run enUS [FocusMyRegistrations; Settle 0 (TokenRead (Fulfilled (Some "tok")))]
        (initial hackDay) = Some s
    /\ In (GetRegistrations "tok") (apiCalls s)
    /\ tokenOfCall (GetRegistrations "tok") <> Some EmptyString.
Proof.
  eexists. split; [reflexivity|]. split; [left; reflexivity|].
  apply (no_request_with_empty_token enUS hackDay
           [FocusMyRegistrations; Settle 0 (TokenRead (Fulfilled (Some "tok")))]
           _ (GetRegistrations "tok") eq_refl).
  left. reflexivity.
Defined.


Lemma query_case_is_ignored_witness :
  toLowerCase "HACK" = toLowerCase "hack"
  /\ filterEvents enUS [hackDay; springFest] "HACK"
     = filterEvents enUS [hackDay; springFest] "hack".
Proof.
  split; [reflexivity|].
  apply (query_case_is_ignored enUS [hackDay; springFest] "HACK" "hack" eq_refl).
Defined.

Lemma register_button_guards_double_submit_witness :
  details_loading (details (app (initial hackDay))) = false
  /\ exists s1,
       step enUS PressRegister (initial hackDay) = Some s1
       /\ step enUS PressRegister s1 = None.
Proof.
  split; [reflexivity|].
  destruct (register_button_guards_double_submit enUS (initial hackDay) eq_refl)
    as [s1 [H1 [H2 _]]].
  exists s1. split; [exact H1 | exact H2].
Defined.

Lemma register_failure_stays_on_screen_witness :
  "tok" <> EmptyString
  /\ exists s1,
       settle 0 (TokenRead Rejected) (start handleRegister (initial hackDay))
         = Some s1
       /\ effects (app s1) = [ConsoleError "Registration error:"].
Proof.
  split; [discriminate|].
  destruct (register_failure_stays_on_screen (initial hackDay) "tok")
    as [[s1 [H1 [_ H2]]] _]; [discriminate|].
  exists s1. split; [exact H1 | exact H2].
Defined.

Lemma declining_cancel_changes_nothing_witness :
  exists s',
    run enUS [PressCancel "r1"; PressNo]
        (mkSys (mkApp (mkHome [] [] true None EmptyString)
                      (mkDetails hackDay false None)
                      (mkRegs [r1; r2] false None)
                      None
                      [Network (GetRegistrations "tok")])
               [])
      = Some s'
    /\ ledger s' = [r1; r2]
    /\ apiCalls s' = [GetRegistrations "tok"].
Proof.
  destruct (declining_cancel_changes_nothing enUS
              (mkSys (mkApp (mkHome [] [] true None EmptyString)
                            (mkDetails hackDay false None)
                            (mkRegs [r1; r2] false None)
                            None
                            [Network (GetRegistrations "tok")])
                     [])
              "r1" eq_refl)
    as [s' [H1 [H2 [H3 _]]]].
  exists s'. split; [exact H1|]. split; [|exact H3].
  unfold ledger. now rewrite H2.
Defined.

Lemma cards_follow_the_ledger_witness :
  cancelButtonShown enUS "r2"
    (mkApp (mkHome [] [] true None EmptyString)
           (mkDetails hackDay false None)
           (mkRegs [r1; r2] false None)
           None []) = true.
Proof.
  apply (proj2 (cards_follow_the_ledger enUS
                  (mkApp (mkHome [] [] true None EmptyString)
                         (mkDetails hackDay false None)
                         (mkRegs [r1; r2] false None)
                         None [])
                  eq_refl eq_refl)).
  right. left. reflexivity.
Defined.

Lemma failed_refresh_keeps_ledger_witness :
  "tok" <> EmptyString
  /\ exists s',
       run enUS
           [FocusMyRegistrations;
            Settle 0 (TokenRead (Fulfilled (Some "tok")));
            Settle 0 (RegistrationsResponse Rejected)]
           (mkSys (mkApp (mkHome [] [] true None EmptyString)
                         (mkDetails hackDay false None)
                         (mkRegs [r1; r2] false None)
                         None [])
                  [])
         = Some s'
       /\ ledger s' = [r1; r2].
Proof.
  split; [discriminate|].
  destruct (failed_refresh_keeps_ledger enUS
              (mkSys (mkApp (mkHome [] [] true None EmptyString)
                            (mkDetails hackDay false None)
                            (mkRegs [r1; r2] false None)
                            None [])
                     [])
              "tok")
    as [_ [s' [H1 [H2 _]]]]; [discriminate|].
  exists s'. split; [exact H1 | exact H2].
Defined.

